(** * MQTT to TimescaleDB bridge: a shallow embedding of
    [telegraf/mqtt_to_timescaledb.py] and the properties of its ingestion
    pipeline, dedup cache, configuration loader and connection manager. *)

From Stdlib Require Import ZArith List String Ascii Bool Lia.
From Stdlib Require Import Floats.
Import ListNotations.
Local Open Scope string_scope.
Local Open Scope list_scope.
Local Open Scope Z_scope.

(** ** Python values

    The values [json.loads] can produce.  A [PStr] holds one [ascii] per
    character.  [PDict] keeps the items in insertion order; a key occurs at
    most once in a dict built by [json.loads], and [dict_get] reads the first
    binding. *)

#[warnings="-register-all"]
Inductive pyval : Type :=
| PNone
| PBool (b : bool)
| PInt (z : Z)
| PFloat (f : float)
| PStr (s : string)
| PList (l : list pyval)
| PDict (items : list (string * pyval)).

(** Exceptions raised on the paths of this program. *)
Inductive exn : Type :=
| JSONDecodeError
| UnicodeDecodeError
| AttributeError
| TypeError
| ValueError
| StopIteration.

(** A computation that returns or raises. *)
Definition result (A : Type) : Type := (exn + A)%type.

Definition ok {A} (a : A) : result A := inr a.
Definition throw {A} (e : exn) : result A := inl e.

Definition rbind {A B} (m : result A) (k : A -> result B) : result B :=
  match m with
  | inl e => inl e
  | inr a => k a
  end.

Declare Scope result_scope.
Delimit Scope result_scope with result.
Notation "x <-? m ;; k" := (rbind m (fun x => k))
  (at level 61, m at next level, right associativity) : result_scope.

(** [bool(v)]: Python truth value. *)
Definition truthy (v : pyval) : bool :=
  match v with
  | PNone => false
  | PBool b => b
  | PInt z => negb (z =? 0)
  | PFloat f => negb (PrimFloat.eqb f 0%float)
  | PStr s => negb (Nat.eqb (String.length s) 0)
  | PList l => negb (Nat.eqb (List.length l) 0)
  | PDict items => negb (Nat.eqb (List.length items) 0)
  end.

Fixpoint dict_get (items : list (string * pyval)) (key : string) : option pyval :=
  match items with
  | [] => None
  | (k, v) :: rest => if String.eqb k key then Some v else dict_get rest key
  end.

(** [dict.get(key, default)] *)
Definition dict_get_default (items : list (string * pyval)) (key : string)
  (default : pyval) : pyval :=
  match dict_get items key with
  | Some v => v
  | None => default
  end.

(** [obj.get(key, default)]: only a dict has the attribute [get]. *)
Definition py_get (obj : pyval) (key : string) (default : pyval) : result pyval :=
  match obj with
  | PDict items => ok (dict_get_default items key default)
  | _ => throw AttributeError
  end.

(** [s.replace('Z', '+00:00')] on a Python string: every ['Z'] is replaced. *)
Fixpoint replace_Z (s : string) : string :=
  match s with
  | EmptyString => EmptyString
  | String c rest =>
      if Ascii.eqb c "Z"%char then String.append "+00:00" (replace_Z rest)
      else String c (replace_Z rest)
  end.

(** [timestamp.replace('Z', '+00:00')]: only a string has [replace]. *)
Definition py_replace_Z (v : pyval) : result string :=
  match v with
  | PStr s => ok (replace_Z s)
  | _ => throw AttributeError
  end.

(** [len(v)]. *)
Definition py_len (v : pyval) : result Z :=
  match v with
  | PStr s => ok (Z.of_nat (String.length s))
  | PList l => ok (Z.of_nat (List.length l))
  | PDict items => ok (Z.of_nat (List.length items))
  | _ => throw TypeError
  end.

(** [v[:19]]. *)
Definition py_slice19 (v : pyval) : result pyval :=
  match v with
  | PStr s => ok (PStr (substring 0 19 s))
  | PList l => ok (PList (firstn 19 l))
  | _ => throw TypeError
  end.

(** ** Keys of the dedup cache

    A key is the tuple [(haystack_name, timestamp_second)].  Hashing a tuple
    hashes its elements: a list or a dict inside raises [TypeError]. *)

Definition hashable (v : pyval) : bool :=
  match v with
  | PList _ | PDict _ => false
  | _ => true
  end.

(** Numbers compare by value across [bool], [int] and [float]. *)
Inductive number : Type :=
| NInt (z : Z)
| NFloat (f : float).

Definition as_number (v : pyval) : option number :=
  match v with
  | PBool b => Some (NInt (if b then 1 else 0))
  | PInt z => Some (NInt z)
  | PFloat f => Some (NFloat f)
  | _ => None
  end.

(** Exact comparison of an integer with a binary64 float. *)
Definition int_eq_float (z : Z) (f : float) : bool :=
  match Prim2SF f with
  | S754_zero _ => z =? 0
  | S754_finite sign m e =>
      let mag := if sign then Z.neg m else Z.pos m in
      if 0 <=? e then z =? mag * 2 ^ e
      else z * 2 ^ (- e) =? mag
  | _ => false
  end.

Definition is_nan (f : float) : bool := negb (PrimFloat.eqb f f).

(** Two floats are the same key when they are equal, or when both are the
    [NaN] constant of the [json] module (one shared object). *)
Definition float_key_eq (f g : float) : bool :=
  PrimFloat.eqb f g || (is_nan f && is_nan g).

Definition number_eq (a b : number) : bool :=
  match a, b with
  | NInt x, NInt y => x =? y
  | NInt x, NFloat g => int_eq_float x g
  | NFloat f, NInt y => int_eq_float y f
  | NFloat f, NFloat g => float_key_eq f g
  end.

(** Equality of two hashable values, as a dict lookup sees it. *)
Definition key_component_eq (a b : pyval) : bool :=
  match as_number a, as_number b with
  | Some x, Some y => number_eq x y
  | None, None =>
      match a, b with
      | PNone, PNone => true
      | PStr s, PStr t => String.eqb s t
      | _, _ => false
      end
  | _, _ => false
  end.

Definition dedup_key : Type := (pyval * pyval)%type.

Definition key_hashable (k : dedup_key) : bool :=
  hashable (fst k) && hashable (snd k).

Definition key_eq (a b : dedup_key) : bool :=
  key_component_eq (fst a) (fst b) && key_component_eq (snd a) (snd b).

(** ** The datetime library

    [datetime.fromisoformat] and [str(dt)] belong to the Python runtime, and
    what [fromisoformat] accepts depends on its version: both are an
    interface here.  [fromisoformat s = None] stands for [ValueError]. *)

Class DatetimeLib : Type := {
  datetime : Type;
  fromisoformat : string -> option datetime;
  datetime_str : datetime -> string
}.

(** ** Records written by the logger *)

Inductive log_record : Type :=
| LogStats (received written errs : Z)
| LogInvalidJson
| LogProcessingError (e : exn)
| LogInsertError
| LogTimescaleConnected
| LogTimescaleConnectFailed.

(** ** Statistics *)

Record stats_t : Type := {
  messages_received : Z;
  messages_written : Z;
  errors : Z
}.

Definition stats0 : stats_t :=
  {| messages_received := 0; messages_written := 0; errors := 0 |}.

(** ** The dedup cache: the keys of [seen_messages] in insertion order *)

Definition cache : Type := list dedup_key.

(** [dedup_key in seen_messages]: hashing the key comes first. *)
Definition cache_contains (k : dedup_key) (c : cache) : result bool :=
  if key_hashable k then ok (existsb (key_eq k) c) else throw TypeError.

(** [seen_messages[dedup_key] = True]: a new key goes to the end, a key
    already present keeps its place. *)
Definition cache_store (k : dedup_key) (c : cache) : cache :=
  if existsb (key_eq k) c then c else c ++ [k].

(** [seen_messages.pop(next(iter(seen_messages)), None)]: [next] raises
    [StopIteration] on an empty dict, otherwise the oldest key goes. *)
Definition pop_oldest (c : cache) : result cache :=
  match c with
  | [] => throw StopIteration
  | _ :: rest => ok rest
  end.

(** How a block of the callback ends: it falls through with a value, it
    executes [return], or it raises. *)
Inductive outcome (A : Type) : Type :=
| Normal (a : A)
| Returned
| Raised (e : exn).
Arguments Normal {A} a.
Arguments Returned {A}.
Arguments Raised {A} e.

Section Pipeline.

Context {DT : DatetimeLib}.

(** The [data] dict handed to [insert_sensor_reading]: one field per column. *)
Record reading : Type := {
  time : datetime;
  site_id : pyval;
  equipment_type : pyval;
  equipment_id : pyval;
  device_id : pyval;
  device_name : pyval;
  device_ip : pyval;
  object_type : pyval;
  object_instance : pyval;
  point_id : pyval;
  point_name : pyval;
  haystack_name : pyval;
  dis : pyval;
  value : pyval;
  units : pyval;
  quality : pyval;
  poll_duration : pyval;
  poll_cycle : pyval
}.

(** What the storage connection was asked to do. *)
Inductive sink_event : Type :=
| SinkExecute (data : reading) (succeeded : bool)
| SinkConnect (succeeded : bool).

(** The module-level state [on_message] works on, with the storage calls and
    the log lines it has issued so far. *)
Record pipeline : Type := {
  stats : stats_t;
  seen_messages : cache;
  sink : list sink_event;
  logged : list log_record
}.

Definition pipeline0 : pipeline :=
  {| stats := stats0; seen_messages := []; sink := []; logged := [] |}.

(** One delivery of the transport, with what the environment answers while it
    is processed:
    - [payload]: the outcome of [json.loads(msg.payload.decode('utf-8'))];
    - [utcnow]: the value of [datetime.utcnow()], read when the payload has
      no timestamp;
    - [execute_ok]: whether [cursor()], [execute] and [close] go through;
    - [reconnect_ok]: whether [psycopg2.connect] succeeds, if it is called. *)
Record delivery : Type := {
  payload : result pyval;
  utcnow : datetime;
  execute_ok : bool;
  reconnect_ok : bool
}.

(** *** State and exception monad of the callback *)

Definition M (A : Type) : Type := pipeline -> outcome A * pipeline.

Definition ret {A} (a : A) : M A := fun st => (Normal a, st).

Definition bind {A B} (m : M A) (k : A -> M B) : M B :=
  fun st =>
    match m st with
    | (Normal a, st') => k a st'
    | (Returned, st') => (Returned, st')
    | (Raised e, st') => (Raised e, st')
    end.

Definition lift {A} (r : result A) : M A :=
  fun st =>
    match r with
    | inl e => (Raised e, st)
    | inr a => (Normal a, st)
    end.

Definition return_ {A} : M A := fun st => (Returned, st).

Definition modify (f : pipeline -> pipeline) : M unit :=
  fun st => (Normal tt, f st).

Definition gets {A} (f : pipeline -> A) : M A :=
  fun st => (Normal (f st), st).

Declare Scope pipeline_scope.
Delimit Scope pipeline_scope with pipeline.
Notation "x <- m ;; k" := (bind m (fun x => k))
  (at level 61, m at next level, right associativity) : pipeline_scope.
Notation "m ;; k" := (bind m (fun _ => k))
  (at level 61, right associativity) : pipeline_scope.

(** *** Field updates *)

Definition set_stats (f : stats_t -> stats_t) (st : pipeline) : pipeline :=
  {| stats := f (stats st); seen_messages := seen_messages st;
     sink := sink st; logged := logged st |}.

Definition set_seen (c : cache) (st : pipeline) : pipeline :=
  {| stats := stats st; seen_messages := c;
     sink := sink st; logged := logged st |}.

Definition emit (evs : list sink_event) (st : pipeline) : pipeline :=
  {| stats := stats st; seen_messages := seen_messages st;
     sink := sink st ++ evs; logged := logged st |}.

Definition log (l : log_record) (st : pipeline) : pipeline :=
  {| stats := stats st; seen_messages := seen_messages st;
     sink := sink st; logged := logged st ++ [l] |}.

Definition incr_received (s : stats_t) : stats_t :=
  {| messages_received := messages_received s + 1;
     messages_written := messages_written s;
     errors := errors s |}.

Definition incr_written (s : stats_t) : stats_t :=
  {| messages_received := messages_received s;
     messages_written := messages_written s + 1;
     errors := errors s |}.

Definition incr_errors (s : stats_t) : stats_t :=
  {| messages_received := messages_received s;
     messages_written := messages_written s;
     errors := errors s + 1 |}.

(** *** Lines 211-223: parsing, event time and dedup key

    This part of [on_message] reads the message only. *)

Record parsed : Type := {
  p_payload : pyval;
  p_timestamp : pyval;
  p_dt : datetime;
  p_haystack_name : pyval;
  p_timestamp_second : pyval
}.

Definition p_dedup_key (p : parsed) : dedup_key :=
  (p_haystack_name p, p_timestamp_second p).

Definition str19 (dt : datetime) : pyval :=
  PStr (substring 0 19 (datetime_str dt)).

Definition read_message (msg : delivery) : result parsed :=
  (payload <-? payload msg ;;
   timestamp <-? py_get payload "timestamp" PNone ;;
   dt <-? (if truthy timestamp then
             s <-? py_replace_Z timestamp ;;
             match fromisoformat s with
             | Some d => ok d
             | None => throw ValueError
             end
           else ok (utcnow msg)) ;;
   a <-? py_get payload "haystackName" PNone ;;
   haystack_name <-? (if truthy a then ok a
                      else py_get payload "haystack_name" PNone) ;;
   timestamp_second <-? (if truthy timestamp then
                           n <-? py_len timestamp ;;
                           if 19 <=? n then py_slice19 timestamp
                           else ok (str19 dt)
                         else ok (str19 dt)) ;;
   ok {| p_payload := payload; p_timestamp := timestamp; p_dt := dt;
         p_haystack_name := haystack_name;
         p_timestamp_second := timestamp_second |})%result.

(** *** Lines 233-252: the row to insert *)

Definition prepare_data (payload : pyval) (dt : datetime) (name : pyval)
  : result reading :=
  (v_site_id <-? py_get payload "siteId" PNone ;;
   v_equipment_type <-? py_get payload "equipmentType" PNone ;;
   v_equipment_id <-? py_get payload "equipmentId" PNone ;;
   v_device_id <-? py_get payload "deviceId" (PInt 0) ;;
   v_device_name <-? py_get payload "deviceName" PNone ;;
   v_device_ip <-? py_get payload "deviceIp" PNone ;;
   v_object_type <-? py_get payload "objectType" (PStr "unknown") ;;
   v_object_instance <-? py_get payload "objectInstance" (PInt 0) ;;
   v_point_id <-? py_get payload "pointId" PNone ;;
   v_point_name <-? py_get payload "pointName" PNone ;;
   v_dis <-? py_get payload "dis" PNone ;;
   v_value <-? py_get payload "value" PNone ;;
   v_units <-? py_get payload "units" PNone ;;
   v_quality <-? py_get payload "quality" (PStr "good") ;;
   v_poll_duration <-? py_get payload "pollDuration" PNone ;;
   v_poll_cycle <-? py_get payload "pollCycle" PNone ;;
   ok {| time := dt;
         site_id := v_site_id;
         equipment_type := v_equipment_type;
         equipment_id := v_equipment_id;
         device_id := v_device_id;
         device_name := v_device_name;
         device_ip := v_device_ip;
         object_type := v_object_type;
         object_instance := v_object_instance;
         point_id := v_point_id;
         point_name := v_point_name;
         haystack_name := name;
         dis := v_dis;
         value := v_value;
         units := v_units;
         quality := v_quality;
         poll_duration := v_poll_duration;
         poll_cycle := v_poll_cycle |})%result.

(** *** The storage adapter *)

(** [connect_timescale_db]: catches its own failure and reports it as
    [False]. *)
Definition connect_timescale_db (succeeds : bool) : M bool :=
  fun st =>
    if succeeds
    then (Normal true, log LogTimescaleConnected (emit [SinkConnect true] st))
    else (Normal false,
          log LogTimescaleConnectFailed (emit [SinkConnect false] st)).

(** [insert_sensor_reading]: a failed insert is logged and followed by a
    reconnect, inside the function's own [except]; nothing is raised to the
    caller. *)
Definition insert_sensor_reading (msg : delivery) (data : reading) : M unit :=
  (if execute_ok msg then modify (emit [SinkExecute data true])
   else
     modify (emit [SinkExecute data false]) ;;
     modify (log LogInsertError) ;;
     _ <- connect_timescale_db (reconnect_ok msg) ;;
     ret tt)%pipeline.

(** *** The callback *)

Definition pop_oldest_m : M unit :=
  fun st =>
    match pop_oldest (seen_messages st) with
    | inl e => (Raised e, st)
    | inr c => (Normal tt, set_seen c st)
    end.

(** [for _ in range(n): body] *)
Fixpoint for_range (n : nat) (body : M unit) : M unit :=
  match n with
  | O => ret tt
  | S n' => (body ;; for_range n' body)%pipeline
  end.

(** The body of the [try] block of [on_message]. *)
Definition on_message_try (msg : delivery) : M unit :=
  (modify (set_stats incr_received) ;;
   p <- lift (read_message msg) ;;
   let dedup_key := p_dedup_key p in
   seen <- gets seen_messages ;;
   present <- lift (cache_contains dedup_key seen) ;;
   if present then return_
   else
     modify (fun st => set_seen (cache_store dedup_key (seen_messages st)) st) ;;
     seen' <- gets seen_messages ;;
     (if 1000 <? Z.of_nat (List.length seen')
      then for_range 100 pop_oldest_m
      else ret tt) ;;
     data <- lift (prepare_data (p_payload p) (p_dt p) (p_haystack_name p)) ;;
     insert_sensor_reading msg data ;;
     modify (set_stats incr_written) ;;
     s <- gets stats ;;
     if messages_received s mod 10 =? 0
     then modify (log (LogStats (messages_received s) (messages_written s)
                                (errors s)))
     else ret tt)%pipeline.

(** [on_message]: the [try] block and its two [except] clauses. *)
Definition on_message (msg : delivery) (st : pipeline) : pipeline :=
  match on_message_try msg st with
  | (Raised JSONDecodeError, st') =>
      log LogInvalidJson (set_stats incr_errors st')
  | (Raised e, st') =>
      log (LogProcessingError e) (set_stats incr_errors st')
  | (_, st') => st'
  end.

(** What lines 227-230 leave of a cache [c] that did not hold [k]: [k] is
    appended, and past 1000 entries the 100 oldest go. *)
Definition after_store (k : dedup_key) (c : cache) : cache :=
  if 1000 <? Z.of_nat (List.length (c ++ [k]))
  then skipn 100 (c ++ [k])
  else c ++ [k].

(** The pipeline after a sequence of deliveries, oldest first. *)
Definition deliver_all (msgs : list delivery) (st : pipeline) : pipeline :=
  fold_left (fun s m => on_message m s) msgs st.

End Pipeline.

(** ** Broker configuration *)

(** The module-level dict [mqtt_config]. *)
Record mqtt_config_t : Type := {
  broker : string;
  port : Z;
  client_id : string;
  username : string;
  password : string;
  tls_enabled : bool;
  tls_insecure : bool;
  ca_cert_path : option string;
  topic_patterns : list string;
  qos : Z;
  enabled : bool
}.

Definition mqtt_config0 : mqtt_config_t :=
  {| broker := ""; port := 1883; client_id := "storage_telegraf";
     username := ""; password := "";
     tls_enabled := false; tls_insecure := false; ca_cert_path := None;
     topic_patterns := ["bacnet/#"]; qos := 1; enabled := false |}.

(** The row of ["MqttConfig"] as the driver returns it: [None] is SQL NULL. *)
Record config_row : Type := {
  row_broker : option string;
  row_port : option Z;
  row_clientId : option string;
  row_username : option string;
  row_password : option string;
  row_tlsEnabled : option bool;
  row_tlsInsecure : option bool;
  row_caCertPath : option string;
  row_topicPatterns : option (list string);
  row_qos : option Z;
  row_enabled : option bool
}.

(** What the query of [load_mqtt_config] comes back with. *)
Inductive query_answer : Type :=
| QueryFailed
| NoRow
| Row (r : config_row).

Definition nonempty (s : string) : bool := negb (Nat.eqb (String.length s) 0).

(** [x or d] at each column type: [d] replaces [None] and every other falsy
    value. *)
Definition or_str (x : option string) (d : string) : string :=
  match x with
  | Some s => if nonempty s then s else d
  | None => d
  end.

Definition or_int (x : option Z) (d : Z) : Z :=
  match x with
  | Some z => if z =? 0 then d else z
  | None => d
  end.

Definition or_bool (x : option bool) (d : bool) : bool :=
  match x with
  | Some true => true
  | _ => d
  end.

Definition or_list {A} (x : option (list A)) (d : list A) : list A :=
  match x with
  | Some (a :: l) => a :: l
  | _ => d
  end.

(** Lines 110-120 of [load_mqtt_config]. *)
Definition apply_row (r : config_row) : mqtt_config_t :=
  {| broker := or_str (row_broker r) "";
     port := or_int (row_port r) 1883;
     client_id := or_str (row_clientId r) "storage_telegraf";
     username := or_str (row_username r) "";
     password := or_str (row_password r) "";
     tls_enabled := or_bool (row_tlsEnabled r) false;
     tls_insecure := or_bool (row_tlsInsecure r) false;
     ca_cert_path := row_caCertPath r;
     topic_patterns := or_list (row_topicPatterns r) ["bacnet/#"];
     qos := or_int (row_qos r) 1;
     enabled := match row_enabled r with
                | Some b => b
                | None => true
                end |}.

(** ** Connection manager *)

Inductive tls_mode : Type :=
| TlsInsecure
| TlsCaFile (path : string)
| TlsSystemCa.

(** The paho client object, by what has been set on it. *)
Record client : Type := {
  cl_client_id : string;
  cl_auth : option (string * string);
  cl_tls : option tls_mode
}.

(** Calls on the transport, in order. *)
Inductive transport_event : Type :=
| NewClient (id : string)
| Connect (c : client) (host : string) (tcp_port : Z) (keepalive : Z)
| ConnectRaised (c : client)
| LoopStart (c : client)
| Disconnect (c : client)
| LoopStop (c : client)
| Subscribe (pattern : string) (level : Z).

Inductive connection_status : Type :=
| StatusConnecting
| StatusConnected
| StatusDisconnected
| StatusError.

Inductive manager_log : Type :=
| LogConfigLoaded (cfg : mqtt_config_t)
| LogNoConfig
| LogConfigLoadFailed
| LogBrokerNotConfigured
| LogMqttDisabled
| LogAuthConfigured (user : string)
| LogTlsInsecure
| LogCaNotFound (path : string)
| LogCaNotReadable (path : string)
| LogTlsCa (path : string)
| LogTlsSystemCa
| LogConnectFailed
| LogConfigChanged
| LogConnecting
| LogBrokerConnected
| LogBrokerRefused (code : Z)
| LogUnexpectedDisconnect (code : Z)
| LogSubscribed (pattern : string).

(** The module-level state of the connection manager, with the calls made on
    the transport, the statuses passed to [update_connection_status] (with
    its [last_connected] flag) and the log. *)
Record manager : Type := {
  mqtt_config : mqtt_config_t;
  mqtt_client : option client;
  mqtt_connected : bool;
  transport : list transport_event;
  statuses : list (connection_status * bool);
  mlogged : list manager_log
}.

Definition manager0 : manager :=
  {| mqtt_config := mqtt_config0; mqtt_client := None;
     mqtt_connected := false; transport := []; statuses := [];
     mlogged := [] |}.

Definition set_config (cfg : mqtt_config_t) (st : manager) : manager :=
  {| mqtt_config := cfg; mqtt_client := mqtt_client st;
     mqtt_connected := mqtt_connected st; transport := transport st;
     statuses := statuses st; mlogged := mlogged st |}.

Definition set_client (c : option client) (st : manager) : manager :=
  {| mqtt_config := mqtt_config st; mqtt_client := c;
     mqtt_connected := mqtt_connected st; transport := transport st;
     statuses := statuses st; mlogged := mlogged st |}.

Definition set_connected (b : bool) (st : manager) : manager :=
  {| mqtt_config := mqtt_config st; mqtt_client := mqtt_client st;
     mqtt_connected := b; transport := transport st;
     statuses := statuses st; mlogged := mlogged st |}.

Definition call (evs : list transport_event) (st : manager) : manager :=
  {| mqtt_config := mqtt_config st; mqtt_client := mqtt_client st;
     mqtt_connected := mqtt_connected st; transport := transport st ++ evs;
     statuses := statuses st; mlogged := mlogged st |}.

(** [update_connection_status]: a failed write is logged and swallowed. *)
Definition update_connection_status (s : connection_status)
  (last_connected : bool) (st : manager) : manager :=
  {| mqtt_config := mqtt_config st; mqtt_client := mqtt_client st;
     mqtt_connected := mqtt_connected st; transport := transport st;
     statuses := statuses st ++ [(s, last_connected)]; mlogged := mlogged st |}.

Definition mlog (l : list manager_log) (st : manager) : manager :=
  {| mqtt_config := mqtt_config st; mqtt_client := mqtt_client st;
     mqtt_connected := mqtt_connected st; transport := transport st;
     statuses := statuses st; mlogged := mlogged st ++ l |}.

(** [load_mqtt_config] *)
Definition load_mqtt_config (answer : query_answer) (st : manager)
  : bool * manager :=
  match answer with
  | Row r =>
      let cfg := apply_row r in
      (true, mlog [LogConfigLoaded cfg] (set_config cfg st))
  | NoRow => (false, mlog [LogNoConfig] st)
  | QueryFailed => (false, mlog [LogConfigLoadFailed] st)
  end.

(** Callbacks the transport thread delivers. *)
Inductive callback : Type :=
| OnConnect (reason_code : Z)
| OnDisconnect (reason_code : Z).

(** [on_connect] *)
Definition on_connect (reason_code : Z) (st : manager) : manager :=
  if reason_code =? 0 then
    let st1 := mlog [LogBrokerConnected] (set_connected true st) in
    let st2 := update_connection_status StatusConnected true st1 in
    fold_left
      (fun s pattern =>
         mlog [LogSubscribed pattern]
              (call [Subscribe pattern (qos (mqtt_config s))] s))
      (topic_patterns (mqtt_config st2)) st2
  else
    update_connection_status StatusError false
      (mlog [LogBrokerRefused reason_code] (set_connected false st)).

(** [on_disconnect] *)
Definition on_disconnect (reason_code : Z) (st : manager) : manager :=
  let st1 := set_connected false st in
  let st2 := if negb (reason_code =? 0)
             then mlog [LogUnexpectedDisconnect reason_code] st1
             else st1 in
  update_connection_status StatusDisconnected false st2.

Definition run_callback (cb : callback) (st : manager) : manager :=
  match cb with
  | OnConnect rc => on_connect rc st
  | OnDisconnect rc => on_disconnect rc st
  end.

Definition run_callbacks (cbs : list callback) (st : manager) : manager :=
  fold_left (fun s cb => run_callback cb s) cbs st.

(** What the environment answers during one [connect_mqtt]:
    - [path_exists], [path_readable]: [os.path.exists], [os.access(_, R_OK)];
    - [tls_set_ok], [connect_ok]: whether [tls_set] and [connect] return
      rather than raise;
    - [during_wait]: the callbacks delivered while [time.sleep(2)] runs. *)
Record connect_env : Type := {
  path_exists : string -> bool;
  path_readable : string -> bool;
  tls_set_ok : bool;
  connect_ok : bool;
  during_wait : list callback
}.

(** The [except] clause of [connect_mqtt]. *)
Definition connect_failed (st : manager) : bool * manager :=
  (false, update_connection_status StatusError false (mlog [LogConnectFailed] st)).

(** Lines 336-364: the lines logged before [tls_set] is called, the TLS mode
    it is called with, and the line logged once it has returned. *)
Definition choose_tls (env : connect_env) (cfg : mqtt_config_t)
  : list manager_log * tls_mode * manager_log :=
  if tls_insecure cfg then ([], TlsInsecure, LogTlsInsecure)
  else
    let checked :=
      match ca_cert_path cfg with
      | Some path =>
          if nonempty path then
            if negb (path_exists env path) then ([LogCaNotFound path], None)
            else if negb (path_readable env path)
                 then ([LogCaNotReadable path], None)
                 else ([], Some path)
          else ([], Some path)
      | None => ([], None)
      end in
    match snd checked with
    | Some path =>
        if nonempty path then (fst checked, TlsCaFile path, LogTlsCa path)
        else (fst checked, TlsSystemCa, LogTlsSystemCa)
    | None => (fst checked, TlsSystemCa, LogTlsSystemCa)
    end.

(** [connect_mqtt] *)
Definition connect_mqtt (env : connect_env) (st : manager) : bool * manager :=
  let cfg := mqtt_config st in
  if negb (nonempty (broker cfg)) then
    (false, mlog [LogBrokerNotConfigured] st)
  else if negb (enabled cfg) then
    (false, mlog [LogMqttDisabled] st)
  else
    let c0 := {| cl_client_id := client_id cfg; cl_auth := None;
                 cl_tls := None |} in
    let st0 := call [NewClient (client_id cfg)] (set_client (Some c0) st) in
    let c1 := if nonempty (username cfg)
              then {| cl_client_id := cl_client_id c0;
                      cl_auth := Some (username cfg, password cfg);
                      cl_tls := None |}
              else c0 in
    let st1 := if nonempty (username cfg)
               then mlog [LogAuthConfigured (username cfg)]
                         (set_client (Some c1) st0)
               else st0 in
    let after_tls :=
      if tls_enabled cfg then
        let '(before, mode, after) := choose_tls env cfg in
        let st_checked := mlog before st1 in
        if tls_set_ok env then
          let c2 := {| cl_client_id := cl_client_id c1; cl_auth := cl_auth c1;
                       cl_tls := Some mode |} in
          inr (c2, mlog [after] (set_client (Some c2) st_checked))
        else inl st_checked
      else inr (c1, st1) in
    match after_tls with
    | inl st2 => connect_failed st2
    | inr (c, st2) =>
        let st3 := update_connection_status StatusConnecting false st2 in
        if connect_ok env then
          let st4 := call [Connect c (broker cfg) (port cfg) 60; LoopStart c] st3 in
          let st5 := run_callbacks (during_wait env) st4 in
          (mqtt_connected st5, st5)
        else connect_failed (call [ConnectRaised c] st3)
    end.

(** ** The main loop *)

(** What the environment answers during one iteration of [main]'s loop:
    - [current_time]: [time.time()];
    - [answer]: what the configuration query returns, if it is issued;
    - [after_disconnect]: the callbacks delivered between [disconnect()] and
      the end of [time.sleep(1)];
    - [reconnect_env], [retry_env]: the environment of the [connect_mqtt] of
      line 425 and of line 430. *)
Record tick_env : Type := {
  current_time : float;
  answer : query_answer;
  after_disconnect : list callback;
  reconnect_env : connect_env;
  retry_env : connect_env
}.

(** Lines 414-418: [config_changed]. *)
Definition config_changed (old new : mqtt_config_t) : bool :=
  negb (String.eqb (broker old) (broker new))
  || negb (port old =? port new)
  || negb (Bool.eqb (tls_enabled old) (tls_enabled new)).

Definition is_some {A} (o : option A) : bool :=
  match o with
  | Some _ => true
  | None => false
  end.

(** Lines 406-425: reload the configuration and reconnect on a change. *)
Definition check_config (env : tick_env) (st : manager) : manager :=
  let old := mqtt_config st in
  let st1 := snd (load_mqtt_config (answer env) st) in
  if config_changed old (mqtt_config st1) && is_some (mqtt_client st1) then
    match mqtt_client st1 with
    | Some c =>
        let st2 := call [Disconnect c; LoopStop c] (mlog [LogConfigChanged] st1) in
        let st3 := run_callbacks (after_disconnect env) st2 in
        snd (connect_mqtt (reconnect_env env) st3)
    | None => st1
    end
  else st1.

(** The local [last_config_check] of [main] and the module-level state. *)
Record loop_state : Type := {
  last_config_check : float;
  mgr : manager
}.

Definition config_check_interval : float := 30%float.

(** One iteration of the [while True] loop of [main]. *)
Definition main_iteration (env : tick_env) (ls : loop_state) : loop_state :=
  let ls1 :=
    if PrimFloat.ltb config_check_interval
         (PrimFloat.sub (current_time env) (last_config_check ls))
    then {| last_config_check := current_time env;
            mgr := check_config env (mgr ls) |}
    else ls in
  let st := mgr ls1 in
  if negb (mqtt_connected st) && nonempty (broker (mqtt_config st))
     && enabled (mqtt_config st)
  then {| last_config_check := last_config_check ls1;
          mgr := snd (connect_mqtt (retry_env env) (mlog [LogConnecting] st)) |}
  else ls1.

(** Observations on the calls a step added to the transport. *)
Definition is_new_client (ev : transport_event) : bool :=
  match ev with
  | NewClient _ => true
  | _ => false
  end.

Definition is_disconnect (ev : transport_event) : bool :=
  match ev with
  | Disconnect _ => true
  | _ => false
  end.

Definition is_loop_stop (ev : transport_event) : bool :=
  match ev with
  | LoopStop _ => true
  | _ => false
  end.

(** The calls [st'] has made beyond those of [st]. *)
Definition new_calls (st st' : manager) : list transport_event :=
  skipn (List.length (transport st)) (transport st').


Definition rebuilt (st st' : manager) : bool :=
  existsb is_new_client (new_calls st st').

(** ** A datetime library for running examples

    [IsoSeconds] reads the forms [YYYY-MM-DDTHH:MM:SS] and
    [YYYY-MM-DDTHH:MM:SS+00:00] of a valid date and renders them as [str(dt)]
    does. *)

Module IsoSeconds.

Record t : Type := {
  year : Z; month : Z; day : Z;
  hour : Z; minute : Z; second : Z;
  utc : bool
}.

Definition digit (c : ascii) : option Z :=
  let n := Z.of_nat (nat_of_ascii c) in
  if (48 <=? n) && (n <=? 57) then Some (n - 48) else None.

Fixpoint digits (acc : Z) (s : string) : option Z :=
  match s with
  | EmptyString => Some acc
  | String c rest =>
      match digit c with
      | Some d => digits (acc * 10 + d) rest
      | None => None
      end
  end.

Definition field (s : string) (start len : nat) : option Z :=
  digits 0 (substring start len s).

Definition is_leap (y : Z) : bool :=
  ((y mod 4 =? 0) && negb (y mod 100 =? 0)) || (y mod 400 =? 0).

Definition days_in_month (y m : Z) : Z :=
  if m =? 2 then (if is_leap y then 29 else 28)
  else if (m =? 4) || (m =? 6) || (m =? 9) || (m =? 11) then 30
  else 31.

Definition parse (s : string) : option t :=
  let n := String.length s in
  if negb (Nat.eqb n 19 || Nat.eqb n 25) then None
  else if negb (String.eqb (substring 4 1 s) "-"
                && String.eqb (substring 7 1 s) "-"
                && String.eqb (substring 10 1 s) "T"
                && String.eqb (substring 13 1 s) ":"
                && String.eqb (substring 16 1 s) ":") then None
  else if Nat.eqb n 25 && negb (String.eqb (substring 19 6 s) "+00:00")
  then None
  else
    match field s 0 4, field s 5 2, field s 8 2,
          field s 11 2, field s 14 2, field s 17 2 with
    | Some y, Some mo, Some d, Some h, Some mi, Some se =>
        if (1 <=? y) && (1 <=? mo) && (mo <=? 12)
           && (1 <=? d) && (d <=? days_in_month y mo)
           && (h <=? 23) && (mi <=? 59) && (se <=? 59)
        then Some {| year := y; month := mo; day := d;
                     hour := h; minute := mi; second := se;
                     utc := Nat.eqb n 25 |}
        else None
    | _, _, _, _, _, _ => None
    end.

Definition digit_char (d : Z) : string :=
  String (ascii_of_nat (48 + Z.to_nat (d mod 10))) EmptyString.

Definition two (n : Z) : string :=
  String.append (digit_char (n / 10)) (digit_char n).

Definition four (n : Z) : string :=
  String.append (two (n / 100)) (two n).

Definition render (d : t) : string :=
  String.concat ""
    [four (year d); "-"; two (month d); "-"; two (day d); " ";
     two (hour d); ":"; two (minute d); ":"; two (second d);
     if utc d then "+00:00" else ""].

#[global] Instance lib : DatetimeLib :=
  {| datetime := t; fromisoformat := parse; datetime_str := render |}.

End IsoSeconds.

(** ** Sample deliveries *)

Module Samples.

Definition noon : IsoSeconds.t :=
  {| IsoSeconds.year := 2024; IsoSeconds.month := 1; IsoSeconds.day := 1;
     IsoSeconds.hour := 12; IsoSeconds.minute := 0; IsoSeconds.second := 0;
     IsoSeconds.utc := false |}.

Definition midnight_utc : IsoSeconds.t :=
  {| IsoSeconds.year := 2024; IsoSeconds.month := 1; IsoSeconds.day := 1;
     IsoSeconds.hour := 0; IsoSeconds.minute := 0; IsoSeconds.second := 0;
     IsoSeconds.utc := true |}.

Definition stamp : string := "2024-01-01T00:00:00Z".

(** The JSON object [{"haystackName": name, "timestamp": stamp, "value": v}]. *)
Definition reading_payload (name : string) (v : pyval) : pyval :=
  PDict [("haystackName", PStr name); ("timestamp", PStr stamp); ("value", v)].

(** A delivery of that object; [stored] tells whether the insert goes
    through. *)
Definition reading_msg (name : string) (v : pyval) (stored : bool)
  : @delivery IsoSeconds.lib :=
  {| payload := inr (reading_payload name v);
     utcnow := noon; execute_ok := stored; reconnect_ok := true |}.

(** What lines 211-223 make of it. *)
Definition reading_parsed (name : string) (v : pyval) : @parsed IsoSeconds.lib :=
  {| p_payload := reading_payload name v;
     p_timestamp := PStr stamp;
     p_dt := midnight_utc;
     p_haystack_name := PStr name;
     p_timestamp_second := PStr "2024-01-01T00:00:00" |}.

(** The JSON object [{"timestamp": stamp, "deviceId": id}]: no name field. *)
Definition keyless_payload (id : Z) : pyval :=
  PDict [("timestamp", PStr stamp); ("deviceId", PInt id)].

Definition keyless_msg (id : Z) : @delivery IsoSeconds.lib :=
  {| payload := inr (keyless_payload id);
     utcnow := noon; execute_ok := true; reconnect_ok := true |}.

Definition keyless_parsed (id : Z) : @parsed IsoSeconds.lib :=
  {| p_payload := keyless_payload id;
     p_timestamp := PStr stamp;
     p_dt := midnight_utc;
     p_haystack_name := PNone;
     p_timestamp_second := PStr "2024-01-01T00:00:00" |}.

(** A payload that is not JSON. *)
Definition garbled_msg : @delivery IsoSeconds.lib :=
  {| payload := inl JSONDecodeError;
     utcnow := noon; execute_ok := true; reconnect_ok := true |}.

Definition temperature : pyval := PFloat 21.5%float.

(** Ten readings of ten points; the insert of the fifth fails. *)
Definition batch_fifth_fails : list (@delivery IsoSeconds.lib) :=
  [ reading_msg "p1" temperature true; reading_msg "p2" temperature true;
    reading_msg "p3" temperature true; reading_msg "p4" temperature true;
    reading_msg "p5" temperature false; reading_msg "p6" temperature true;
    reading_msg "p7" temperature true; reading_msg "p8" temperature true;
    reading_msg "p9" temperature true; reading_msg "p10" temperature true ].

(** Nine readings of nine points. *)
Definition nine_readings : list (@delivery IsoSeconds.lib) :=
  [ reading_msg "p1" temperature true; reading_msg "p2" temperature true;
    reading_msg "p3" temperature true; reading_msg "p4" temperature true;
    reading_msg "p5" temperature true; reading_msg "p6" temperature true;
    reading_msg "p7" temperature true; reading_msg "p8" temperature true;
    reading_msg "p9" temperature true ].

(** The reading of point number [i]. *)
Definition numbered (i : nat) : @delivery IsoSeconds.lib :=
  reading_msg (String.append "p" (IsoSeconds.four (Z.of_nat i))) temperature
    true.

(** A thousand readings of a thousand points. *)
Definition thousand_readings : list (@delivery IsoSeconds.lib) := map numbered (seq 0 1000).

(** The row of the configuration table for a broker at [addr]. *)
Definition broker_row (addr : string) (tls : bool) (topics : list string)
  (level : Z) (on : bool) : config_row :=
  {| row_broker := Some addr; row_port := Some 1883;
     row_clientId := Some "storage_telegraf";
     row_username := Some ""; row_password := Some "";
     row_tlsEnabled := Some tls; row_tlsInsecure := Some false;
     row_caCertPath := None;
     row_topicPatterns := Some topics; row_qos := Some level;
     row_enabled := Some on |}.

(** The broker accepts within the two seconds [connect_mqtt] waits. *)
Definition accepting : connect_env :=
  {| path_exists := fun _ => true; path_readable := fun _ => true;
     tls_set_ok := true; connect_ok := true;
     during_wait := [OnConnect 0] |}.

(** A configuration check that reads row [r]. *)
Definition tick_reading (r : config_row) : tick_env :=
  {| current_time := 60%float; answer := Row r;
     after_disconnect := [OnDisconnect 0];
     reconnect_env := accepting; retry_env := accepting |}.

(** The manager once it has loaded [{address: "broker1", tls: false}] and
    connected. *)
Definition connected_to_broker1 : manager :=
  snd (connect_mqtt accepting
         (snd (load_mqtt_config
                 (Row (broker_row "broker1" false ["bacnet/#"] 1 true))
                 manager0))).

End Samples.

(** ** Observations on the pipeline *)

Definition is_dict (v : pyval) : bool :=
  match v with
  | PDict _ => true
  | _ => false
  end.

Definition is_string (v : pyval) : bool :=
  match v with
  | PStr _ => true
  | _ => false
  end.

Definition is_execute {DT : DatetimeLib} (ev : sink_event) : bool :=
  match ev with
  | SinkExecute _ _ => true
  | SinkConnect _ => false
  end.

(** The number of inserts the storage connection was asked for. *)
Definition inserts {DT : DatetimeLib} (st : pipeline) : Z :=
  Z.of_nat (List.length (filter is_execute (sink st))).

(** The line the [except] clauses log for an exception. *)
Definition error_line (e : exn) : log_record :=
  match e with
  | JSONDecodeError => LogInvalidJson
  | _ => LogProcessingError e
  end.

(** No character of [s] is ['Z']. *)
Fixpoint no_Z (s : string) : bool :=
  match s with
  | EmptyString => true
  | String c rest => negb (Ascii.eqb c "Z"%char) && no_Z rest
  end.

(** ** Observations on the connection manager *)

Definition is_subscribe (ev : transport_event) : bool :=
  match ev with
  | Subscribe _ _ => true
  | _ => false
  end.

Definition is_loop_start (ev : transport_event) : bool :=
  match ev with
  | LoopStart _ => true
  | _ => false
  end.

(** The configuration after a series of reloads, oldest first. *)
Definition reload_all (answers : list query_answer) (st : manager) : manager :=
  fold_left (fun s a => snd (load_mqtt_config a s)) answers st.

(** ** More sample inputs *)

Module MoreSamples.

Definition on_clock (v : pyval) : @delivery IsoSeconds.lib :=
  {| payload := inr v; utcnow := Samples.noon;
     execute_ok := true; reconnect_ok := true |}.

(** The JSON array [[1]]. *)
Definition array_msg : @delivery IsoSeconds.lib :=
  on_clock (PList [PInt 1]).

(** [{"haystackName": "ahu1", "timestamp": "yesterday"}] *)
Definition yesterday_items : list (string * pyval) :=
  [("haystackName", PStr "ahu1"); ("timestamp", PStr "yesterday")].

(** [{"haystackName": "ahu1", "timestamp": 1704067200}] *)
Definition epoch_items : list (string * pyval) :=
  [("haystackName", PStr "ahu1"); ("timestamp", PInt 1704067200)].

(** [{"haystackName": ["ahu1"]}] *)
Definition listed_name_items : list (string * pyval) :=
  [("haystackName", PList [PStr "ahu1"])].

Definition listed_name_parsed : @parsed IsoSeconds.lib :=
  {| p_payload := PDict listed_name_items;
     p_timestamp := PNone;
     p_dt := Samples.noon;
     p_haystack_name := PList [PStr "ahu1"];
     p_timestamp_second := PStr "2024-01-01 12:00:00" |}.

(** [{"haystackName": "", "haystack_name": "ahu2", "value": 3}] *)
Definition fallback_items : list (string * pyval) :=
  [("haystackName", PStr ""); ("haystack_name", PStr "ahu2");
   ("value", PInt 3)].

Definition fallback_parsed : @parsed IsoSeconds.lib :=
  {| p_payload := PDict fallback_items;
     p_timestamp := PNone;
     p_dt := Samples.noon;
     p_haystack_name := PStr "ahu2";
     p_timestamp_second := PStr "2024-01-01 12:00:00" |}.

(** [{"haystackName": "ahu1", "timestamp": "2024-01-01T00:00:00"}] *)
Definition plain_stamp_items : list (string * pyval) :=
  [("haystackName", PStr "ahu1"); ("timestamp", PStr "2024-01-01T00:00:00")].

(** The manager with configuration [cfg] and nothing else done. *)
Definition configured (cfg : mqtt_config_t) : manager :=
  set_config cfg manager0.

(** A broker at ["broker1"] over TLS, with a CA file configured. *)
Definition tls_config (insecure : bool) : mqtt_config_t :=
  {| broker := "broker1"; port := 8883; client_id := "storage_telegraf";
     username := "storage"; password := "secret";
     tls_enabled := true; tls_insecure := insecure;
     ca_cert_path := Some "/certs/ca.crt";
     topic_patterns := ["bacnet/#"; "modbus/#"]; qos := 1; enabled := true |}.

(** The CA file is not there; the broker accepts. *)
Definition no_ca_file : connect_env :=
  {| path_exists := fun _ => false; path_readable := fun _ => false;
     tls_set_ok := true; connect_ok := true;
     during_wait := [OnConnect 0] |}.

(** The broker cannot be reached: [connect] raises. *)
Definition unreachable : connect_env :=
  {| path_exists := fun _ => true; path_readable := fun _ => true;
     tls_set_ok := true; connect_ok := false;
     during_wait := [] |}.

(** An iteration of the loop at time [now] that would read row [r]. *)
Definition tick_at (now : float) (r : config_row) : tick_env :=
  {| current_time := now; answer := Row r;
     after_disconnect := [OnDisconnect 0];
     reconnect_env := Samples.accepting; retry_env := Samples.accepting |}.

(** An iteration whose configuration query fails. *)
Definition tick_store_down : tick_env :=
  {| current_time := 60%float; answer := QueryFailed;
     after_disconnect := [];
     reconnect_env := Samples.accepting; retry_env := Samples.accepting |}.

End MoreSamples.

(** * Properties *)

(** ** Keys and the cache *)

Lemma key_component_eq_refl (v : pyval) :
  hashable v = true -> key_component_eq v v = true.
Proof.
  destruct v as [| b | z | f | s | l | items]; simpl; intros Hh;
    try discriminate; unfold key_component_eq; simpl.
  - reflexivity.
  - apply Z.eqb_refl.
  - apply Z.eqb_refl.
  - unfold float_key_eq, is_nan. destruct (PrimFloat.eqb f f); reflexivity.
  - apply String.eqb_refl.
Qed.

Lemma key_eq_refl (k : dedup_key) :
  key_hashable k = true -> key_eq k k = true.
Proof.
  unfold key_hashable, key_eq. intros H.
  apply andb_true_iff in H. destruct H as [H1 H2].
  rewrite !key_component_eq_refl by assumption. reflexivity.
Qed.

Lemma cache_contains_hashable (k : dedup_key) (c : cache) (b : bool) :
  cache_contains k c = inr b ->
  key_hashable k = true /\ existsb (key_eq k) c = b.
Proof.
  unfold cache_contains. destruct (key_hashable k); intros H.
  - inversion H. split; reflexivity.
  - discriminate.
Qed.

Lemma cache_contains_last (k : dedup_key) (c : cache) :
  key_hashable k = true -> cache_contains k (c ++ [k]) = inr true.
Proof.
  intros Hh. unfold cache_contains. rewrite Hh.
  rewrite existsb_app. simpl. rewrite (key_eq_refl k Hh).
  rewrite orb_true_r. reflexivity.
Qed.

Lemma cache_contains_skipn (k : dedup_key) (c : cache) (n : nat) :
  key_hashable k = true -> (n <= List.length c)%nat ->
  cache_contains k (skipn n (c ++ [k])) = inr true.
Proof.
  intros Hh Hn. rewrite skipn_app.
  replace (n - List.length c)%nat with 0%nat by lia.
  simpl. apply cache_contains_last. exact Hh.
Qed.

Lemma cache_store_fresh (k : dedup_key) (c : cache) :
  existsb (key_eq k) c = false -> cache_store k c = c ++ [k].
Proof. unfold cache_store. intros ->. reflexivity. Qed.

Section PipelineFacts.

Context {DT : DatetimeLib}.

Lemma for_range_pop (n : nat) :
  forall st : pipeline,
    (n <= List.length (seen_messages st))%nat ->
    for_range n pop_oldest_m st
    = (Normal tt, set_seen (skipn n (seen_messages st)) st).
Proof.
  induction n as [| n IH]; intros st Hn.
  - simpl. unfold ret, set_seen. destruct st; reflexivity.
  - cbn [for_range]. unfold bind.
    destruct (seen_messages st) as [| k rest] eqn:Hseen.
    + simpl in Hn. lia.
    + replace (pop_oldest_m st) with (Normal tt, set_seen rest st)
        by (unfold pop_oldest_m; rewrite Hseen; reflexivity).
      rewrite IH by (simpl in *; lia).
      unfold set_seen. simpl. reflexivity.
Qed.

(** A payload that got through lines 211-223 is a dict. *)
Lemma read_message_dict (msg : delivery) (p : parsed) :
  read_message msg = inr p ->
  exists items, payload msg = inr (PDict items) /\ p_payload p = PDict items.
Proof.
  unfold read_message. destruct (payload msg) as [e | v]; simpl.
  - discriminate.
  - destruct v; simpl; try discriminate.
    intros H. exists items. split; [reflexivity |].
    unfold rbind in H.
    repeat match type of H with
           | match ?x with _ => _ end = _ => destruct x; try discriminate
           end.
    all: inversion H; reflexivity.
Qed.

Lemma prepare_data_dict (items : list (string * pyval)) (dt : datetime)
  (name : pyval) :
  exists d, prepare_data (PDict items) dt name = inr d
    /\ time d = dt
    /\ haystack_name d = name
    /\ device_id d = dict_get_default items "deviceId" (PInt 0)
    /\ object_type d = dict_get_default items "objectType" (PStr "unknown")
    /\ object_instance d = dict_get_default items "objectInstance" (PInt 0)
    /\ quality d = dict_get_default items "quality" (PStr "good")
    /\ value d = dict_get_default items "value" PNone.
Proof.
  eexists. split; [reflexivity |]. simpl. repeat split.
Qed.

(** What the storage adapter adds to the calls and to the log. *)
Lemma insert_sensor_reading_run (msg : delivery) (d : reading) (st : pipeline) :
  insert_sensor_reading msg d st
  = (Normal tt,
     {| stats := stats st;
        seen_messages := seen_messages st;
        sink := sink st ++
                (if execute_ok msg then [SinkExecute d true]
                 else [SinkExecute d false; SinkConnect (reconnect_ok msg)]);
        logged := logged st ++
                  (if execute_ok msg then []
                   else [LogInsertError;
                         if reconnect_ok msg then LogTimescaleConnected
                         else LogTimescaleConnectFailed]) |}).
Proof.
  unfold insert_sensor_reading.
  destruct (execute_ok msg).
  - unfold modify, emit. rewrite app_nil_r. reflexivity.
  - unfold bind, modify, connect_timescale_db, ret.
    destruct (reconnect_ok msg); unfold log, emit; simpl;
      rewrite <- !app_assoc; reflexivity.
Qed.

(** A message whose key is in the cache: only [messages_received] moves. *)
Lemma on_message_duplicate (msg : delivery) (p : parsed) (st : pipeline) :
  read_message msg = inr p ->
  cache_contains (p_dedup_key p) (seen_messages st) = inr true ->
  on_message msg st = set_stats incr_received st.
Proof.
  intros Hread Hin.
  unfold on_message, on_message_try, bind, modify, lift, gets.
  rewrite Hread. simpl. rewrite Hin. reflexivity.
Qed.

(** A message whose key is not in the cache: the whole path. *)
Lemma on_message_fresh (msg : delivery) (p : parsed) (st : pipeline) :
  read_message msg = inr p ->
  cache_contains (p_dedup_key p) (seen_messages st) = inr false ->
  exists d,
    prepare_data (p_payload p) (p_dt p) (p_haystack_name p) = inr d
    /\ on_message msg st
       = {| stats := incr_written (incr_received (stats st));
            seen_messages := after_store (p_dedup_key p) (seen_messages st);
            sink := sink st ++
                    (if execute_ok msg then [SinkExecute d true]
                     else [SinkExecute d false; SinkConnect (reconnect_ok msg)]);
            logged :=
              (logged st ++
               (if execute_ok msg then []
                else [LogInsertError;
                      if reconnect_ok msg then LogTimescaleConnected
                      else LogTimescaleConnectFailed])) ++
              (if (messages_received (stats st) + 1) mod 10 =? 0
               then [LogStats (messages_received (stats st) + 1)
                              (messages_written (stats st) + 1)
                              (errors (stats st))]
               else []) |}.
Proof.
  intros Hread Hin.
  destruct (read_message_dict msg p Hread) as [items [_ Hp]].
  destruct (prepare_data_dict items (p_dt p) (p_haystack_name p))
    as [d [Hd _]].
  rewrite <- Hp in Hd.
  exists d. split; [exact Hd |].
  destruct (cache_contains_hashable _ _ _ Hin) as [_ Hex].
  unfold on_message, on_message_try.
  unfold bind at 1. unfold modify at 1.
  unfold bind at 1. unfold lift at 1. rewrite Hread.
  unfold bind at 1. unfold gets at 1.
  unfold bind at 1. unfold lift at 1. cbn [seen_messages set_stats].
  rewrite Hin.
  unfold bind at 1. unfold modify at 1.
  unfold bind at 1. unfold gets at 1.
  cbn [seen_messages set_seen set_stats].
  rewrite (cache_store_fresh _ _ Hex).
  unfold bind at 1.
  unfold after_store.
  destruct (1000 <? Z.of_nat (List.length (seen_messages st ++ [p_dedup_key p])))
    eqn:Hbig.
  - rewrite for_range_pop.
    2:{ cbn [seen_messages set_seen]. apply Z.ltb_lt in Hbig. lia. }
    cbn [seen_messages set_seen set_stats stats sink logged].
    unfold bind at 1. unfold lift at 1. rewrite Hd.
    unfold bind at 1. rewrite insert_sensor_reading_run.
    unfold bind, modify, gets, ret.
    cbn [seen_messages set_seen set_stats stats sink logged incr_written
         incr_received messages_received messages_written errors].
    destruct ((messages_received (stats st) + 1) mod 10 =? 0);
      unfold log; simpl; rewrite ?app_nil_r; reflexivity.
  - unfold ret at 1.
    unfold bind at 1. unfold lift at 1. rewrite Hd.
    unfold bind at 1. rewrite insert_sensor_reading_run.
    unfold bind, modify, gets, ret.
    cbn [seen_messages set_seen set_stats stats sink logged incr_written
         incr_received messages_received messages_written errors].
    destruct ((messages_received (stats st) + 1) mod 10 =? 0);
      unfold log; simpl; rewrite ?app_nil_r; reflexivity.
Qed.

(** A message that raises before the cache is touched. *)
Lemma on_message_unreadable (msg : delivery) (e : exn) (st : pipeline) :
  read_message msg = inl e ->
  on_message msg st
  = log (match e with
         | JSONDecodeError => LogInvalidJson
         | _ => LogProcessingError e
         end)
        (set_stats incr_errors (set_stats incr_received st)).
Proof.
  intros Hread.
  unfold on_message, on_message_try, bind, modify, lift.
  rewrite Hread. destruct e; reflexivity.
Qed.

Lemma on_message_unhashable (msg : delivery) (p : parsed) (e : exn)
  (st : pipeline) :
  read_message msg = inr p ->
  cache_contains (p_dedup_key p) (seen_messages st) = inl e ->
  on_message msg st
  = log (match e with
         | JSONDecodeError => LogInvalidJson
         | _ => LogProcessingError e
         end)
        (set_stats incr_errors (set_stats incr_received st)).
Proof.
  intros Hread Hin.
  unfold on_message, on_message_try, bind, modify, lift, gets.
  rewrite Hread. simpl. rewrite Hin. destruct e; reflexivity.
Qed.

Lemma after_store_length (k : dedup_key) (c : cache) :
  (List.length c <= 1000)%nat ->
  (List.length (after_store k c) <= 1000)%nat.
Proof.
  intros Hc. unfold after_store.
  destruct (1000 <? Z.of_nat (List.length (c ++ [k]))) eqn:Hbig.
  - rewrite length_skipn, length_app. simpl. lia.
  - apply Z.ltb_ge in Hbig. lia.
Qed.

Lemma after_store_contains (k : dedup_key) (c : cache) :
  key_hashable k = true ->
  cache_contains k (after_store k c) = inr true.
Proof.
  intros Hh. unfold after_store.
  destruct (1000 <? Z.of_nat (List.length (c ++ [k]))) eqn:Hbig.
  - apply cache_contains_skipn; [exact Hh |].
    apply Z.ltb_lt in Hbig. rewrite length_app in Hbig. simpl in Hbig. lia.
  - apply cache_contains_last. exact Hh.
Qed.

(** One delivery keeps the cache within its bound. *)
Lemma on_message_cache_bound (msg : delivery) (st : pipeline) :
  (List.length (seen_messages st) <= 1000)%nat ->
  (List.length (seen_messages (on_message msg st)) <= 1000)%nat.
Proof.
  intros Hc.
  destruct (read_message msg) as [e | p] eqn:Hread.
  - rewrite (on_message_unreadable msg e st Hread). exact Hc.
  - destruct (cache_contains (p_dedup_key p) (seen_messages st))
      as [e | [|]] eqn:Hin.
    + rewrite (on_message_unhashable msg p e st Hread Hin). exact Hc.
    + rewrite (on_message_duplicate msg p st Hread Hin). exact Hc.
    + destruct (on_message_fresh msg p st Hread Hin) as [d [_ Hrun]].
      rewrite Hrun. cbn [seen_messages].
      apply after_store_length. exact Hc.
Qed.

Lemma deliver_all_cache_bound (msgs : list delivery) :
  forall st : pipeline,
    (List.length (seen_messages st) <= 1000)%nat ->
    (List.length (seen_messages (deliver_all msgs st)) <= 1000)%nat.
Proof.
  induction msgs as [| m msgs IH]; intros st Hc.
  - exact Hc.
  - simpl. apply IH. apply on_message_cache_bound. exact Hc.
Qed.

(** A run of messages that all carry a key held by the cache. *)
Lemma deliver_all_duplicates (k : dedup_key) (msgs : list delivery) :
  forall st : pipeline,
    cache_contains k (seen_messages st) = inr true ->
    (forall m, In m msgs ->
       exists q, read_message m = inr q /\ p_dedup_key q = k) ->
    sink (deliver_all msgs st) = sink st
    /\ seen_messages (deliver_all msgs st) = seen_messages st
    /\ logged (deliver_all msgs st) = logged st
    /\ messages_written (stats (deliver_all msgs st))
       = messages_written (stats st)
    /\ errors (stats (deliver_all msgs st)) = errors (stats st)
    /\ messages_received (stats (deliver_all msgs st))
       = messages_received (stats st) + Z.of_nat (List.length msgs).
Proof.
  induction msgs as [| m msgs IH]; intros st Hin Hall.
  - simpl. repeat split; lia.
  - destruct (Hall m (or_introl eq_refl)) as [q [Hq Hk]].
    assert (Hstep : on_message m st = set_stats incr_received st).
    { apply on_message_duplicate with (p := q); [exact Hq |].
      rewrite Hk. exact Hin. }
    cbn [deliver_all fold_left]. fold (deliver_all msgs (on_message m st)).
    rewrite Hstep.
    destruct (IH (set_stats incr_received st)) as (H1 & H2 & H3 & H4 & H5 & H6).
    + exact Hin.
    + intros m' Hm'. apply Hall. right. exact Hm'.
    + rewrite H1, H2, H3, H4, H5, H6. cbn.
      repeat split; lia.
Qed.

(** The name of the key: [payload.get('haystackName') or
    payload.get('haystack_name')]. *)
Lemma read_message_name (msg : delivery) (p : parsed)
  (items : list (string * pyval)) :
  payload msg = inr (PDict items) ->
  read_message msg = inr p ->
  p_haystack_name p
  = if truthy (dict_get_default items "haystackName" PNone)
    then dict_get_default items "haystackName" PNone
    else dict_get_default items "haystack_name" PNone.
Proof.
  intros Hpay. unfold read_message. rewrite Hpay.
  cbn [rbind py_get ok].
  set (ts := dict_get_default items "timestamp" PNone).
  set (a := dict_get_default items "haystackName" PNone).
  set (b := dict_get_default items "haystack_name" PNone).
  match goal with
  | |- rbind ?x _ = _ -> _ => destruct x as [e | dt]
  end; cbn [rbind]; [discriminate |].
  destruct (truthy a); unfold ok at 1; cbn [rbind];
    match goal with
    | |- rbind ?x _ = _ -> _ => destruct x as [e | sec]
    end; cbn [rbind]; try discriminate;
    intros H; inversion H; reflexivity.
Qed.

(** A payload without either name field gets the name [None]. *)
Lemma read_message_keyless (msg : delivery) (p : parsed)
  (items : list (string * pyval)) :
  payload msg = inr (PDict items) ->
  dict_get items "haystackName" = None ->
  dict_get items "haystack_name" = None ->
  read_message msg = inr p ->
  p_haystack_name p = PNone.
Proof.
  intros Hpay H1 H2 Hread.
  rewrite (read_message_name msg p items Hpay Hread).
  unfold dict_get_default. rewrite H1, H2. reflexivity.
Qed.

(** ** The ingestion pipeline *)


(** C3. In every state the pipeline reaches, storing a key that takes the
    dedup cache past 1000 entries evicts exactly the 100 entries inserted
    earliest, and the cache holds at most 1000 entries afterwards. *)
Theorem eviction_batch (history : list delivery) (msg : delivery) (p : parsed) :
  read_message msg = inr p ->
  cache_contains (p_dedup_key p)
    (seen_messages (deliver_all history pipeline0)) = inr false ->
  (1000 < List.length (seen_messages (deliver_all history pipeline0)
                       ++ [p_dedup_key p]))%nat ->
  seen_messages (deliver_all history pipeline0) ++ [p_dedup_key p]
  = firstn 100 (seen_messages (deliver_all history pipeline0))
    ++ seen_messages (on_message msg (deliver_all history pipeline0))
  /\ List.length (firstn 100 (seen_messages (deliver_all history pipeline0)))
     = 100%nat
  /\ (List.length
        (seen_messages (on_message msg (deliver_all history pipeline0)))
      <= 1000)%nat.
Proof.
  set (st := deliver_all history pipeline0).
  intros Hread Hfresh Hbig.
  assert (Hbound : (List.length (seen_messages st) <= 1000)%nat).
  { apply deliver_all_cache_bound. simpl. lia. }
  destruct (on_message_fresh msg p st Hread Hfresh) as [d [_ Hrun]].
  rewrite Hrun. cbn [seen_messages]. unfold after_store.
  rewrite length_app in Hbig. simpl in Hbig.
  assert (Hlt : (1000 <? Z.of_nat (List.length
                                     (seen_messages st ++ [p_dedup_key p])))
                = true).
  { apply Z.ltb_lt. rewrite length_app. simpl. lia. }
  rewrite Hlt.
  split; [| split].
  - rewrite skipn_app.
    replace (100 - List.length (seen_messages st))%nat with 0%nat by lia.
    cbn [skipn]. rewrite app_assoc, firstn_skipn. reflexivity.
  - rewrite length_firstn. lia.
  - rewrite length_skipn, length_app. simpl. lia.
Qed.

(** C7. The row built from a parsed, non-duplicate payload carries the
    payload's [objectType], [deviceId], [objectInstance] and [quality] where
    the payload has the field, and otherwise ["unknown"], [0], [0] and
    ["good"]. *)
Theorem reading_field_defaults (st : pipeline) (msg : delivery) (p : parsed)
  (items : list (string * pyval)) :
  payload msg = inr (PDict items) ->
  read_message msg = inr p ->
  cache_contains (p_dedup_key p) (seen_messages st) = inr false ->
  exists d,
    sink (on_message msg st)
    = sink st ++ SinkExecute d (execute_ok msg)
                 :: (if execute_ok msg then []
                     else [SinkConnect (reconnect_ok msg)])
    /\ object_type d = match dict_get items "objectType" with
                       | Some v => v
                       | None => PStr "unknown"
                       end
    /\ device_id d = match dict_get items "deviceId" with
                     | Some v => v
                     | None => PInt 0
                     end
    /\ object_instance d = match dict_get items "objectInstance" with
                           | Some v => v
                           | None => PInt 0
                           end
    /\ quality d = match dict_get items "quality" with
                   | Some v => v
                   | None => PStr "good"
                   end.
Proof.
  intros Hpay Hread Hfresh.
  destruct (on_message_fresh msg p st Hread Hfresh) as [d [Hd Hrun]].
  destruct (read_message_dict msg p Hread) as [items' [Hpay' Hp]].
  rewrite Hpay in Hpay'. inversion Hpay'. subst items'.
  destruct (prepare_data_dict items (p_dt p) (p_haystack_name p))
    as [d' (Hd' & _ & _ & Hdev & Hobj & Hinst & Hq & _)].
  rewrite Hp in Hd. rewrite Hd in Hd'. inversion Hd'. subst d'.
  exists d. split.
  - rewrite Hrun. cbn [sink]. destruct (execute_ok msg); reflexivity.
  - rewrite Hobj, Hdev, Hinst, Hq. unfold dict_get_default.
    repeat split; reflexivity.
Qed.

(** C9. The key of a reading goes into the dedup cache before the insert is
    attempted: when the insert fails the key is cached all the same, and
    after any further deliveries that leave it there, a message with that key
    is dropped without a storage call and without counting as written. *)
Theorem failed_write_key_blocks_duplicates (st : pipeline) (msg : delivery)
  (p : parsed) :
  read_message msg = inr p ->
  cache_contains (p_dedup_key p) (seen_messages st) = inr false ->
  execute_ok msg = false ->
  (exists d,
     sink (on_message msg st)
     = sink st ++ [SinkExecute d false; SinkConnect (reconnect_ok msg)])
  /\ cache_contains (p_dedup_key p) (seen_messages (on_message msg st))
     = inr true
  /\ forall (between : list delivery) (again : delivery) (q : parsed),
       read_message again = inr q ->
       p_dedup_key q = p_dedup_key p ->
       cache_contains (p_dedup_key p)
         (seen_messages (deliver_all between (on_message msg st)))
       = inr true ->
       sink (on_message again (deliver_all between (on_message msg st)))
       = sink (deliver_all between (on_message msg st))
       /\ messages_written
            (stats (on_message again
                      (deliver_all between (on_message msg st))))
          = messages_written
              (stats (deliver_all between (on_message msg st))).
Proof.
  intros Hread Hfresh Hfail.
  destruct (on_message_fresh msg p st Hread Hfresh) as [d [_ Hrun]].
  destruct (cache_contains_hashable _ _ _ Hfresh) as [Hh _].
  split; [| split].
  - exists d. rewrite Hrun. cbn [sink]. rewrite Hfail. reflexivity.
  - rewrite Hrun. cbn [seen_messages].
    apply after_store_contains. exact Hh.
  - intros between again q Hq Hk Hin.
    rewrite (on_message_duplicate again q _ Hq) by (rewrite Hk; exact Hin).
    split; reflexivity.
Qed.

(** C10. A payload with neither [haystackName] nor [haystack_name] gets the
    name [None] in its key, so keyless messages of the same timestamp second
    share one key: the first is handed to the storage sink, the others are
    dropped. *)
Theorem keyless_messages_collide (st : pipeline) (first : delivery)
  (items : list (string * pyval)) (p : parsed) (others : list delivery) :
  payload first = inr (PDict items) ->
  dict_get items "haystackName" = None ->
  dict_get items "haystack_name" = None ->
  read_message first = inr p ->
  cache_contains (p_dedup_key p) (seen_messages st) = inr false ->
  (forall m, In m others ->
     exists items' q,
       payload m = inr (PDict items')
       /\ dict_get items' "haystackName" = None
       /\ dict_get items' "haystack_name" = None
       /\ read_message m = inr q
       /\ p_timestamp_second q = p_timestamp_second p) ->
  p_dedup_key p = (PNone, p_timestamp_second p)
  /\ (exists d,
        sink (on_message first st)
        = sink st ++ SinkExecute d (execute_ok first)
                     :: (if execute_ok first then []
                         else [SinkConnect (reconnect_ok first)]))
  /\ sink (deliver_all others (on_message first st))
     = sink (on_message first st)
  /\ messages_written (stats (deliver_all others (on_message first st)))
     = messages_written (stats (on_message first st))
  /\ messages_received (stats (deliver_all others (on_message first st)))
     = messages_received (stats (on_message first st))
       + Z.of_nat (List.length others).
Proof.
  intros Hpay H1 H2 Hread Hfresh Hothers.
  pose proof (read_message_keyless first p items Hpay H1 H2 Hread) as Hname.
  destruct (on_message_fresh first p st Hread Hfresh) as [d [_ Hrun]].
  destruct (cache_contains_hashable _ _ _ Hfresh) as [Hh _].
  assert (Hin : cache_contains (p_dedup_key p)
                  (seen_messages (on_message first st)) = inr true).
  { rewrite Hrun. cbn [seen_messages].
    apply after_store_contains. exact Hh. }
  destruct (deliver_all_duplicates (p_dedup_key p) others
              (on_message first st) Hin)
    as (Hs & _ & _ & Hw & _ & Hr).
  { intros m Hm.
    destruct (Hothers m Hm) as (items' & q & Hp' & G1 & G2 & Hq & Hsec).
    exists q. split; [exact Hq |].
    unfold p_dedup_key.
    rewrite (read_message_keyless m q items' Hp' G1 G2 Hq), Hsec, Hname.
    reflexivity. }
  split; [| split; [| split; [| split]]].
  - unfold p_dedup_key. rewrite Hname. reflexivity.
  - exists d. rewrite Hrun. cbn [sink].
    destruct (execute_ok first); reflexivity.
  - exact Hs.
  - exact Hw.
  - exact Hr.
Qed.

End PipelineFacts.

(** *** The pipeline on the sample deliveries *)


Lemma eviction_batch_witness :
  read_message (Samples.numbered 1000)
  = inr (Samples.reading_parsed "p1000" Samples.temperature)
  /\ (List.length
        (seen_messages
           (on_message (Samples.numbered 1000)
              (deliver_all Samples.thousand_readings pipeline0)))
      <= 1000)%nat
  /\ List.length
       (firstn 100
          (seen_messages (deliver_all Samples.thousand_readings pipeline0)))
     = 100%nat.
Proof.
  assert (H1 : read_message (Samples.numbered 1000)
               = inr (Samples.reading_parsed "p1000" Samples.temperature))
    by reflexivity.
  assert (H2 : cache_contains
                 (p_dedup_key
                    (Samples.reading_parsed "p1000" Samples.temperature))
                 (seen_messages
                    (deliver_all Samples.thousand_readings pipeline0))
               = inr false)
    by (vm_compute; reflexivity).
  assert (H3 : (1000 < List.length
                         (seen_messages
                            (deliver_all Samples.thousand_readings pipeline0)
                          ++ [p_dedup_key
                                (Samples.reading_parsed "p1000"
                                   Samples.temperature)]))%nat).
  { apply Nat.ltb_lt. vm_compute. reflexivity. }
  destruct (eviction_batch Samples.thousand_readings (Samples.numbered 1000)
              (Samples.reading_parsed "p1000" Samples.temperature) H1 H2 H3)
    as (_ & Hhundred & Hbound).
  split; [exact H1 | split; [exact Hbound | exact Hhundred]].
Defined.

Lemma reading_field_defaults_witness :
  exists d,
    sink (on_message (Samples.keyless_msg 7) pipeline0) = [SinkExecute d true]
    /\ object_type d = PStr "unknown"
    /\ device_id d = PInt 7
    /\ object_instance d = PInt 0
    /\ quality d = PStr "good".
Proof.
  destruct (reading_field_defaults pipeline0 (Samples.keyless_msg 7)
              (Samples.keyless_parsed 7)
              [("timestamp", PStr Samples.stamp); ("deviceId", PInt 7)]
              eq_refl eq_refl eq_refl)
    as [d (Hsink & Hobj & Hdev & Hinst & Hq)].
  exists d. repeat split; assumption.
Defined.

Lemma failed_write_key_blocks_duplicates_witness :
  execute_ok (Samples.reading_msg "ahu1/temp" Samples.temperature false)
  = false
  /\ sink
       (on_message (Samples.reading_msg "ahu1/temp" Samples.temperature true)
          (deliver_all Samples.nine_readings
             (on_message
                (Samples.reading_msg "ahu1/temp" Samples.temperature false)
                pipeline0)))
     = sink
         (deliver_all Samples.nine_readings
            (on_message
               (Samples.reading_msg "ahu1/temp" Samples.temperature false)
               pipeline0)).
Proof.
  split; [reflexivity |].
  destruct (failed_write_key_blocks_duplicates pipeline0
              (Samples.reading_msg "ahu1/temp" Samples.temperature false)
              (Samples.reading_parsed "ahu1/temp" Samples.temperature)
              eq_refl eq_refl eq_refl)
    as (_ & _ & Hlater).
  destruct (Hlater Samples.nine_readings
              (Samples.reading_msg "ahu1/temp" Samples.temperature true)
              (Samples.reading_parsed "ahu1/temp" Samples.temperature)
              eq_refl eq_refl)
    as [Hs _].
  - vm_compute. reflexivity.
  - exact Hs.
Defined.

Lemma keyless_messages_collide_witness :
  p_dedup_key (Samples.keyless_parsed 1)
  = (PNone, PStr "2024-01-01T00:00:00")
  /\ messages_written
       (stats
          (deliver_all [Samples.keyless_msg 2; Samples.keyless_msg 3]
             (on_message (Samples.keyless_msg 1) pipeline0)))
     = messages_written
         (stats (on_message (Samples.keyless_msg 1) pipeline0))
  /\ sink
       (deliver_all [Samples.keyless_msg 2; Samples.keyless_msg 3]
          (on_message (Samples.keyless_msg 1) pipeline0))
     = sink (on_message (Samples.keyless_msg 1) pipeline0).
Proof.
  destruct (keyless_messages_collide pipeline0 (Samples.keyless_msg 1)
              [("timestamp", PStr Samples.stamp); ("deviceId", PInt 1)]
              (Samples.keyless_parsed 1)
              [Samples.keyless_msg 2; Samples.keyless_msg 3]
              eq_refl eq_refl eq_refl eq_refl eq_refl)
    as (Hk & _ & Hs & Hw & _).
  - intros m [Hm | [Hm | []]]; subst m.
    + exists [("timestamp", PStr Samples.stamp); ("deviceId", PInt 2)],
        (Samples.keyless_parsed 2).
      repeat split; reflexivity.
    + exists [("timestamp", PStr Samples.stamp); ("deviceId", PInt 3)],
        (Samples.keyless_parsed 3).
      repeat split; reflexivity.
  - split; [exact Hk | split; [exact Hw | exact Hs]].
Defined.

(** C1. The scenario of the batch of ten whose fifth insert fails: the
    failure is logged and followed by a reconnect, the reading is not
    retried, the five later readings are inserted, but [errors] stays at 0
    and [messages_written] counts all ten. *)
Theorem failed_write_counted_as_written :
  stats (deliver_all Samples.batch_fifth_fails pipeline0)
  = {| messages_received := 10; messages_written := 10; errors := 0 |}
  /\ logged (deliver_all Samples.batch_fifth_fails pipeline0)
     = [LogInsertError; LogTimescaleConnected; LogStats 10 10 0]
  /\ map (fun ev => match ev with
                    | SinkExecute _ stored => Some stored
                    | SinkConnect _ => None
                    end)
       (sink (deliver_all Samples.batch_fifth_fails pipeline0))
     = [Some true; Some true; Some true; Some true; Some false; None;
        Some true; Some true; Some true; Some true; Some true].
Proof. vm_compute. repeat split; reflexivity. Qed.

(** C8. The progress line is written at the end of the path of a stored
    reading only: when the tenth message received is a duplicate or is not
    JSON, no progress line is logged for it. *)
Theorem progress_line_skipped_on_drop :
  messages_received
    (stats
       (deliver_all
          (Samples.nine_readings
           ++ [Samples.reading_msg "p9" Samples.temperature true])
          pipeline0)) = 10
  /\ logged
       (deliver_all
          (Samples.nine_readings
           ++ [Samples.reading_msg "p9" Samples.temperature true])
          pipeline0) = []
  /\ messages_received
       (stats
          (deliver_all (Samples.nine_readings ++ [Samples.garbled_msg])
             pipeline0)) = 10
  /\ logged
       (deliver_all (Samples.nine_readings ++ [Samples.garbled_msg])
          pipeline0) = [LogInvalidJson].
Proof. vm_compute. repeat split; reflexivity. Qed.

(** ** The connection manager *)

Lemma new_calls_app (st st' : manager) (evs : list transport_event) :
  transport st' = transport st ++ evs -> new_calls st st' = evs.
Proof.
  intros H. unfold new_calls. rewrite H, skipn_app, skipn_all, Nat.sub_diag.
  reflexivity.
Qed.

(** The subscriptions of [on_connect] add [Subscribe] calls only. *)
Lemma subscribe_all_frame (patterns : list string) :
  forall st : manager,
    mqtt_config
      (fold_left
         (fun s pattern =>
            mlog [LogSubscribed pattern]
              (call [Subscribe pattern (qos (mqtt_config s))] s))
         patterns st) = mqtt_config st
    /\ mqtt_client
         (fold_left
            (fun s pattern =>
               mlog [LogSubscribed pattern]
                 (call [Subscribe pattern (qos (mqtt_config s))] s))
            patterns st) = mqtt_client st
    /\ exists evs,
         transport
           (fold_left
              (fun s pattern =>
                 mlog [LogSubscribed pattern]
                   (call [Subscribe pattern (qos (mqtt_config s))] s))
              patterns st) = transport st ++ evs
         /\ existsb is_disconnect evs = false
         /\ existsb is_loop_stop evs = false
         /\ existsb is_new_client evs = false.
Proof.
  induction patterns as [| pat rest IH]; intros st.
  - repeat split. exists []. cbn. rewrite app_nil_r. repeat split.
  - cbn [fold_left].
    destruct (IH (mlog [LogSubscribed pat]
                    (call [Subscribe pat (qos (mqtt_config st))] st)))
      as (Hc & Hcl & evs & Ht & Hd & Hl & Hn).
    rewrite Hc, Hcl. repeat split.
    exists (Subscribe pat (qos (mqtt_config st)) :: evs).
    rewrite Ht. cbn [transport mlog call]. rewrite <- app_assoc.
    repeat split; assumption.
Qed.

(** A callback leaves the configuration and the client object alone and
    adds neither a teardown nor a new client. *)
Lemma run_callback_frame (cb : callback) (st : manager) :
  mqtt_config (run_callback cb st) = mqtt_config st
  /\ mqtt_client (run_callback cb st) = mqtt_client st
  /\ exists evs,
       transport (run_callback cb st) = transport st ++ evs
       /\ existsb is_disconnect evs = false
       /\ existsb is_loop_stop evs = false
       /\ existsb is_new_client evs = false.
Proof.
  destruct cb as [rc | rc]; cbn [run_callback].
  - unfold on_connect. destruct (rc =? 0).
    + match goal with
      | |- context [fold_left ?f ?l ?s] =>
          destruct (subscribe_all_frame l s)
            as (Hc & Hcl & evs & Ht & Hd & Hl & Hn)
      end.
      rewrite Hc, Hcl, Ht. repeat split.
      exists evs. repeat split; assumption.
    + repeat split. exists []. cbn. rewrite app_nil_r. repeat split.
  - unfold on_disconnect.
    destruct (negb (rc =? 0)); repeat split; exists []; cbn;
      rewrite app_nil_r; repeat split.
Qed.

Lemma run_callbacks_frame (cbs : list callback) :
  forall st : manager,
    mqtt_config (run_callbacks cbs st) = mqtt_config st
    /\ mqtt_client (run_callbacks cbs st) = mqtt_client st
    /\ exists evs,
         transport (run_callbacks cbs st) = transport st ++ evs
         /\ existsb is_disconnect evs = false
         /\ existsb is_loop_stop evs = false
         /\ existsb is_new_client evs = false.
Proof.
  induction cbs as [| cb rest IH]; intros st.
  - repeat split. exists []. cbn. rewrite app_nil_r. repeat split.
  - change (run_callbacks (cb :: rest) st)
      with (run_callbacks rest (run_callback cb st)).
    destruct (run_callback_frame cb st)
      as (Hc & Hcl & evs1 & Ht1 & Hd1 & Hl1 & Hn1).
    destruct (IH (run_callback cb st))
      as (Hc' & Hcl' & evs2 & Ht2 & Hd2 & Hl2 & Hn2).
    rewrite Hc', Hcl', Hc, Hcl. repeat split.
    exists (evs1 ++ evs2). rewrite Ht2, Ht1, <- app_assoc.
    rewrite !existsb_app, Hd1, Hd2, Hl1, Hl2, Hn1, Hn2. repeat split.
Qed.

(** [connect_mqtt] behind its two guards does nothing but log. *)
Lemma connect_mqtt_guarded (env : connect_env) (st : manager) :
  nonempty (broker (mqtt_config st)) && enabled (mqtt_config st) = false ->
  fst (connect_mqtt env st) = false
  /\ exists lines, snd (connect_mqtt env st) = mlog lines st.
Proof.
  intros Hg. unfold connect_mqtt.
  destruct (nonempty (broker (mqtt_config st))); cbn [negb].
  - cbn [andb] in Hg. rewrite Hg. cbn [negb].
    split; [reflexivity | eexists; reflexivity].
  - split; [reflexivity | eexists; reflexivity].
Qed.


(** C5. With an empty broker address or with [enabled] false,
    [connect_mqtt] returns [False] at once: no client is created, no call
    reaches the transport, the connection flag keeps its value and no status
    is recorded. *)
Theorem connect_noop_when_unconfigured (env : connect_env) (st : manager) :
  broker (mqtt_config st) = "" \/ enabled (mqtt_config st) = false ->
  fst (connect_mqtt env st) = false
  /\ mqtt_client (snd (connect_mqtt env st)) = mqtt_client st
  /\ mqtt_connected (snd (connect_mqtt env st)) = mqtt_connected st
  /\ transport (snd (connect_mqtt env st)) = transport st
  /\ statuses (snd (connect_mqtt env st)) = statuses st
  /\ mqtt_config (snd (connect_mqtt env st)) = mqtt_config st.
Proof.
  intros H.
  assert (Hg : nonempty (broker (mqtt_config st)) && enabled (mqtt_config st)
               = false).
  { destruct H as [H | H]; rewrite H.
    - reflexivity.
    - apply andb_false_r. }
  destruct (connect_mqtt_guarded env st Hg) as [Hret [lines Hst]].
  rewrite Hst. repeat split. exact Hret.
Qed.

Lemma connect_noop_when_unconfigured_witness :
  broker (mqtt_config manager0) = ""
  /\ connect_mqtt Samples.accepting manager0
     = (false, mlog [LogBrokerNotConfigured] manager0)
  /\ mqtt_client (snd (connect_mqtt Samples.accepting manager0)) = None
  /\ statuses (snd (connect_mqtt Samples.accepting manager0)) = [].
Proof.
  destruct (connect_noop_when_unconfigured Samples.accepting manager0
              (or_introl eq_refl))
    as (_ & Hcl & _ & _ & Hs & _).
  split; [reflexivity | split; [reflexivity | split]].
  - exact Hcl.
  - exact Hs.
Defined.

(** C6. A stored [qos] of 0 is not loaded unchanged: [result[9] or 1] takes
    it for a missing value and the active configuration gets 1, while a
    stored [enabled] of false is kept and a NULL [enabled] becomes true. *)
Theorem stored_qos_zero_replaced :
  row_qos (Samples.broker_row "broker1" false ["bacnet/#"] 0 false) = Some 0
  /\ qos (mqtt_config
           (snd (load_mqtt_config
                   (Row (Samples.broker_row "broker1" false ["bacnet/#"] 0
                           false))
                   manager0))) = 1
  /\ enabled (mqtt_config
               (snd (load_mqtt_config
                       (Row (Samples.broker_row "broker1" false ["bacnet/#"] 0
                               false))
                       manager0))) = false.
Proof. repeat split; reflexivity. Qed.

(** [load_mqtt_config] touches the configuration and the log only. *)
Lemma load_mqtt_config_frame (answer : query_answer) (st : manager) :
  mqtt_client (snd (load_mqtt_config answer st)) = mqtt_client st
  /\ mqtt_connected (snd (load_mqtt_config answer st)) = mqtt_connected st
  /\ transport (snd (load_mqtt_config answer st)) = transport st
  /\ statuses (snd (load_mqtt_config answer st)) = statuses st.
Proof. destruct answer; repeat split. Qed.




(** ** More on the ingestion pipeline *)

Section PipelineMore.

Context {DT : DatetimeLib}.

(** What both [except] clauses of [on_message] leave behind when the
    exception comes before the cache is touched. *)
Lemma on_message_raises (msg : delivery) (e : exn) (st : pipeline) :
  read_message msg = inl e ->
  stats (on_message msg st)
  = {| messages_received := messages_received (stats st) + 1;
       messages_written := messages_written (stats st);
       errors := errors (stats st) + 1 |}
  /\ seen_messages (on_message msg st) = seen_messages st
  /\ sink (on_message msg st) = sink st
  /\ logged (on_message msg st) = logged st ++ [error_line e].
Proof.
  intros Hread. rewrite (on_message_unreadable msg e st Hread).
  repeat split.
Qed.

Lemma read_message_payload_error (msg : delivery) (e : exn) :
  payload msg = inl e -> read_message msg = inl e.
Proof. intros H. unfold read_message. rewrite H. reflexivity. Qed.

Lemma read_message_not_dict (msg : delivery) (v : pyval) :
  payload msg = inr v -> is_dict v = false ->
  read_message msg = inl AttributeError.
Proof.
  intros H Hv. unfold read_message. rewrite H.
  destruct v; try discriminate; reflexivity.
Qed.

(** X1. A payload that cannot be decoded or parsed is counted as received
    and as an error, is logged once, and touches neither the written count,
    nor the dedup cache, nor the storage. *)
Theorem malformed_payload_counted (msg : delivery) (e : exn) (st : pipeline) :
  payload msg = inl e ->
  stats (on_message msg st)
  = {| messages_received := messages_received (stats st) + 1;
       messages_written := messages_written (stats st);
       errors := errors (stats st) + 1 |}
  /\ seen_messages (on_message msg st) = seen_messages st
  /\ sink (on_message msg st) = sink st
  /\ logged (on_message msg st) = logged st ++ [error_line e].
Proof.
  intros H. apply on_message_raises.
  apply read_message_payload_error. exact H.
Qed.

(** X2. A payload that is valid JSON but not an object (an array, a string,
    a number, a boolean, null) fails at the first [payload.get]: it is
    counted as an error with [AttributeError] and nothing is cached or
    stored. *)
Theorem non_object_payload_counted (msg : delivery) (v : pyval)
  (st : pipeline) :
  payload msg = inr v ->
  is_dict v = false ->
  stats (on_message msg st)
  = {| messages_received := messages_received (stats st) + 1;
       messages_written := messages_written (stats st);
       errors := errors (stats st) + 1 |}
  /\ seen_messages (on_message msg st) = seen_messages st
  /\ sink (on_message msg st) = sink st
  /\ logged (on_message msg st)
     = logged st ++ [LogProcessingError AttributeError].
Proof.
  intros H Hv.
  apply (on_message_raises msg AttributeError st).
  apply (read_message_not_dict msg v H Hv).
Qed.

(** X3. A non-empty timestamp string that [fromisoformat] rejects, once its
    ['Z'] are replaced, makes the message an error ([ValueError]): the
    reading is neither cached nor stored, whatever else the payload holds. *)
Theorem invalid_timestamp_counted (msg : delivery)
  (items : list (string * pyval)) (s : string) (st : pipeline) :
  payload msg = inr (PDict items) ->
  dict_get items "timestamp" = Some (PStr s) ->
  s <> "" ->
  fromisoformat (replace_Z s) = None ->
  stats (on_message msg st)
  = {| messages_received := messages_received (stats st) + 1;
       messages_written := messages_written (stats st);
       errors := errors (stats st) + 1 |}
  /\ seen_messages (on_message msg st) = seen_messages st
  /\ sink (on_message msg st) = sink st
  /\ logged (on_message msg st) = logged st ++ [LogProcessingError ValueError].
Proof.
  intros Hpay Hts Hne Hiso.
  apply (on_message_raises msg ValueError st).
  unfold read_message. rewrite Hpay. cbn [rbind py_get ok].
  unfold dict_get_default at 1 2. rewrite Hts.
  assert (Ht : truthy (PStr s) = true).
  { destruct s; [contradiction Hne; reflexivity | reflexivity]. }
  rewrite Ht. cbn [py_replace_Z rbind ok]. rewrite Hiso. reflexivity.
Qed.

(** X4. A timestamp that is truthy but not a string (a number, [true], a
    non-empty array or object) has no [replace]: the message is an error
    ([AttributeError]) and is neither cached nor stored. *)
Theorem non_string_timestamp_counted (msg : delivery)
  (items : list (string * pyval)) (v : pyval) (st : pipeline) :
  payload msg = inr (PDict items) ->
  dict_get items "timestamp" = Some v ->
  truthy v = true ->
  is_string v = false ->
  stats (on_message msg st)
  = {| messages_received := messages_received (stats st) + 1;
       messages_written := messages_written (stats st);
       errors := errors (stats st) + 1 |}
  /\ seen_messages (on_message msg st) = seen_messages st
  /\ sink (on_message msg st) = sink st
  /\ logged (on_message msg st)
     = logged st ++ [LogProcessingError AttributeError].
Proof.
  intros Hpay Hts Ht Hs.
  apply (on_message_raises msg AttributeError st).
  unfold read_message. rewrite Hpay. cbn [rbind py_get ok].
  unfold dict_get_default at 1 2. rewrite Hts, Ht.
  destruct v; try discriminate; reflexivity.
Qed.

(** X5. A name that cannot be hashed (a non-empty array or object under
    [haystackName], or any array or object under [haystack_name]) fails the
    dedup lookup with [TypeError]: the message is counted as an error, its
    key is not cached and nothing is stored. *)
Theorem unhashable_name_counted (msg : delivery) (p : parsed)
  (st : pipeline) :
  read_message msg = inr p ->
  hashable (p_haystack_name p) = false ->
  stats (on_message msg st)
  = {| messages_received := messages_received (stats st) + 1;
       messages_written := messages_written (stats st);
       errors := errors (stats st) + 1 |}
  /\ seen_messages (on_message msg st) = seen_messages st
  /\ sink (on_message msg st) = sink st
  /\ logged (on_message msg st) = logged st ++ [LogProcessingError TypeError].
Proof.
  intros Hread Hh.
  assert (Hin : cache_contains (p_dedup_key p) (seen_messages st)
                = inl TypeError).
  { unfold cache_contains, key_hashable, p_dedup_key. cbn [fst snd].
    rewrite Hh. reflexivity. }
  rewrite (on_message_unhashable msg p TypeError st Hread Hin).
  repeat split.
Qed.

End PipelineMore.

Lemma malformed_payload_counted_witness :
  payload Samples.garbled_msg = inl JSONDecodeError
  /\ stats (on_message Samples.garbled_msg pipeline0)
     = {| messages_received := 1; messages_written := 0; errors := 1 |}
  /\ logged (on_message Samples.garbled_msg pipeline0) = [LogInvalidJson].
Proof.
  destruct (malformed_payload_counted Samples.garbled_msg JSONDecodeError
              pipeline0 eq_refl)
    as (Hs & _ & _ & Hl).
  split; [reflexivity | split; [exact Hs | exact Hl]].
Defined.

Lemma non_object_payload_counted_witness :
  is_dict (PList [PInt 1]) = false
  /\ stats (on_message MoreSamples.array_msg pipeline0)
     = {| messages_received := 1; messages_written := 0; errors := 1 |}
  /\ sink (on_message MoreSamples.array_msg pipeline0) = [].
Proof.
  destruct (non_object_payload_counted MoreSamples.array_msg (PList [PInt 1])
              pipeline0 eq_refl eq_refl)
    as (Hs & _ & Hk & _).
  split; [reflexivity | split; [exact Hs | exact Hk]].
Defined.

Lemma invalid_timestamp_counted_witness :
  fromisoformat (replace_Z "yesterday") = None
  /\ stats (on_message
             (MoreSamples.on_clock (PDict MoreSamples.yesterday_items))
             pipeline0)
     = {| messages_received := 1; messages_written := 0; errors := 1 |}
  /\ seen_messages
       (on_message (MoreSamples.on_clock (PDict MoreSamples.yesterday_items))
          pipeline0) = [].
Proof.
  assert (Hne : "yesterday" <> "") by discriminate.
  destruct (invalid_timestamp_counted
              (MoreSamples.on_clock (PDict MoreSamples.yesterday_items))
              MoreSamples.yesterday_items "yesterday" pipeline0
              eq_refl eq_refl Hne eq_refl)
    as (Hs & Hc & _ & _).
  split; [reflexivity | split; [exact Hs | exact Hc]].
Defined.

Lemma non_string_timestamp_counted_witness :
  truthy (PInt 1704067200) = true
  /\ stats (on_message
             (MoreSamples.on_clock (PDict MoreSamples.epoch_items))
             pipeline0)
     = {| messages_received := 1; messages_written := 0; errors := 1 |}
  /\ sink (on_message (MoreSamples.on_clock (PDict MoreSamples.epoch_items))
            pipeline0) = [].
Proof.
  destruct (non_string_timestamp_counted
              (MoreSamples.on_clock (PDict MoreSamples.epoch_items))
              MoreSamples.epoch_items (PInt 1704067200) pipeline0
              eq_refl eq_refl eq_refl eq_refl)
    as (Hs & _ & Hk & _).
  split; [reflexivity | split; [exact Hs | exact Hk]].
Defined.

Lemma unhashable_name_counted_witness :
  read_message (MoreSamples.on_clock (PDict MoreSamples.listed_name_items))
  = inr MoreSamples.listed_name_parsed
  /\ stats (on_message
             (MoreSamples.on_clock (PDict MoreSamples.listed_name_items))
             pipeline0)
     = {| messages_received := 1; messages_written := 0; errors := 1 |}
  /\ seen_messages
       (on_message
          (MoreSamples.on_clock (PDict MoreSamples.listed_name_items))
          pipeline0) = [].
Proof.
  destruct (unhashable_name_counted
              (MoreSamples.on_clock (PDict MoreSamples.listed_name_items))
              MoreSamples.listed_name_parsed pipeline0 eq_refl eq_refl)
    as (Hs & Hc & _ & _).
  split; [reflexivity | split; [exact Hs | exact Hc]].
Defined.

Section PipelineAccounting.

Context {DT : DatetimeLib}.

(** The four ways one delivery ends. *)
Lemma on_message_cases (msg : delivery) (st : pipeline) :
  (exists e,
     on_message msg st
     = log (error_line e) (set_stats incr_errors (set_stats incr_received st)))
  \/ on_message msg st = set_stats incr_received st
  \/ exists p d,
       read_message msg = inr p
       /\ cache_contains (p_dedup_key p) (seen_messages st) = inr false
       /\ prepare_data (p_payload p) (p_dt p) (p_haystack_name p) = inr d
       /\ on_message msg st
          = {| stats := incr_written (incr_received (stats st));
               seen_messages := after_store (p_dedup_key p) (seen_messages st);
               sink := sink st ++
                       (if execute_ok msg then [SinkExecute d true]
                        else [SinkExecute d false;
                              SinkConnect (reconnect_ok msg)]);
               logged :=
                 (logged st ++
                  (if execute_ok msg then []
                   else [LogInsertError;
                         if reconnect_ok msg then LogTimescaleConnected
                         else LogTimescaleConnectFailed])) ++
                 (if (messages_received (stats st) + 1) mod 10 =? 0
                  then [LogStats (messages_received (stats st) + 1)
                                 (messages_written (stats st) + 1)
                                 (errors (stats st))]
                  else []) |}.
Proof.
  destruct (read_message msg) as [e | p] eqn:Hread.
  - left. exists e. apply on_message_unreadable. exact Hread.
  - destruct (cache_contains (p_dedup_key p) (seen_messages st))
      as [e | [|]] eqn:Hin.
    + left. exists e. apply (on_message_unhashable msg p e st Hread Hin).
    + right. left. apply (on_message_duplicate msg p st Hread Hin).
    + right. right.
      destruct (on_message_fresh msg p st Hread Hin) as [d [Hd Hrun]].
      exists p, d. repeat split; assumption.
Qed.

Lemma inserts_step (msg : delivery) (st : pipeline) :
  inserts (on_message msg st) - inserts st
  = messages_written (stats (on_message msg st)) - messages_written (stats st).
Proof.
  destruct (on_message_cases msg st) as [[e H] | [H | (p & d & _ & _ & _ & H)]];
    rewrite H; unfold inserts; cbn [sink stats log set_stats incr_errors
      incr_received incr_written messages_written].
  - lia.
  - lia.
  - rewrite filter_app, length_app.
    destruct (execute_ok msg); cbn [filter is_execute List.length]; lia.
Qed.

(** One delivery moves the counters by one step. *)
Lemma counters_step_aux (msg : delivery) (st : pipeline) :
  messages_received (stats (on_message msg st))
  = messages_received (stats st) + 1
  /\ ((messages_written (stats (on_message msg st))
       = messages_written (stats st)
       /\ errors (stats (on_message msg st)) = errors (stats st))
      \/ (messages_written (stats (on_message msg st))
          = messages_written (stats st) + 1
          /\ errors (stats (on_message msg st)) = errors (stats st))
      \/ (messages_written (stats (on_message msg st))
          = messages_written (stats st)
          /\ errors (stats (on_message msg st)) = errors (stats st) + 1)).
Proof.
  destruct (on_message_cases msg st) as [[e H] | [H | (p & d & _ & _ & _ & H)]];
    rewrite H; cbn; split; try reflexivity.
  - right. right. split; reflexivity.
  - left. split; reflexivity.
  - right. left. split; reflexivity.
Qed.

(** X6. Every delivery increments [messages_received] by exactly one and at
    most one of [messages_written] and [errors], by one; no counter ever goes
    down. *)
Theorem counters_step (msg : delivery) (st : pipeline) :
  messages_received (stats (on_message msg st))
  = messages_received (stats st) + 1
  /\ ((messages_written (stats (on_message msg st))
       = messages_written (stats st)
       /\ errors (stats (on_message msg st)) = errors (stats st))
      \/ (messages_written (stats (on_message msg st))
          = messages_written (stats st) + 1
          /\ errors (stats (on_message msg st)) = errors (stats st))
      \/ (messages_written (stats (on_message msg st))
          = messages_written (stats st)
          /\ errors (stats (on_message msg st)) = errors (stats st) + 1)).
Proof. exact (counters_step_aux msg st). Qed.

Lemma deliver_all_accounting (msgs : list delivery) :
  forall st : pipeline,
    messages_received (stats (deliver_all msgs st))
    = messages_received (stats st) + Z.of_nat (List.length msgs)
    /\ inserts (deliver_all msgs st) - inserts st
       = messages_written (stats (deliver_all msgs st))
         - messages_written (stats st)
    /\ messages_written (stats st) <= messages_written (stats (deliver_all msgs st))
    /\ errors (stats st) <= errors (stats (deliver_all msgs st))
    /\ (messages_written (stats (deliver_all msgs st))
        - messages_written (stats st))
       + (errors (stats (deliver_all msgs st)) - errors (stats st))
       <= Z.of_nat (List.length msgs).
Proof.
  induction msgs as [| m msgs IH]; intros st.
  - cbn. repeat split; lia.
  - change (deliver_all (m :: msgs) st)
      with (deliver_all msgs (on_message m st)).
    destruct (IH (on_message m st)) as (Hr & Hi & Hw & He & Hsum).
    pose proof (inserts_step m st) as Hstep.
    destruct (counters_step_aux m st) as [Hr1 Hcases].
    cbn [List.length]. rewrite Nat2Z.inj_succ.
    repeat split; lia.
Qed.

End PipelineAccounting.

Section PipelineInvariants.

Context {DT : DatetimeLib}.

(** X7. After any sequence of deliveries to a fresh pipeline,
    [messages_received] is the number of deliveries, [messages_written] is
    the number of inserts the storage was asked for (failed ones included),
    and [messages_written + errors] never exceeds [messages_received]. *)
Theorem counters_account_for_deliveries (msgs : list delivery) :
  messages_received (stats (deliver_all msgs pipeline0))
  = Z.of_nat (List.length msgs)
  /\ messages_written (stats (deliver_all msgs pipeline0))
     = inserts (deliver_all msgs pipeline0)
  /\ 0 <= messages_written (stats (deliver_all msgs pipeline0))
  /\ 0 <= errors (stats (deliver_all msgs pipeline0))
  /\ messages_written (stats (deliver_all msgs pipeline0))
     + errors (stats (deliver_all msgs pipeline0))
     <= messages_received (stats (deliver_all msgs pipeline0)).
Proof.
  destruct (deliver_all_accounting msgs pipeline0) as (Hr & Hi & Hw & He & Hsum).
  cbn in Hr, Hi, Hw, He, Hsum.
  repeat split; lia.
Qed.

(** X8. However many messages arrive, the dedup cache never holds more than
    1000 keys. *)
Theorem cache_never_exceeds_capacity (msgs : list delivery) :
  (List.length (seen_messages (deliver_all msgs pipeline0)) <= 1000)%nat.
Proof. apply deliver_all_cache_bound. cbn. lia. Qed.

(** X9. Below capacity nothing is evicted: a reading whose key is new to a
    cache of fewer than 1000 keys leaves the cache as it was, with the new
    key at the end. *)
Theorem store_below_capacity_keeps_all (msg : delivery) (p : parsed)
  (st : pipeline) :
  read_message msg = inr p ->
  cache_contains (p_dedup_key p) (seen_messages st) = inr false ->
  (List.length (seen_messages st) < 1000)%nat ->
  seen_messages (on_message msg st) = seen_messages st ++ [p_dedup_key p].
Proof.
  intros Hread Hfresh Hlen.
  destruct (on_message_fresh msg p st Hread Hfresh) as [d [_ Hrun]].
  rewrite Hrun. cbn [seen_messages]. unfold after_store.
  assert (H : (1000 <? Z.of_nat (List.length
                                   (seen_messages st ++ [p_dedup_key p])))
              = false).
  { apply Z.ltb_ge. rewrite length_app. cbn [List.length]. lia. }
  rewrite H. reflexivity.
Qed.

(** X10. For a reading that is stored, the progress line is logged exactly
    when the received count it brings about is a multiple of ten; the line
    carries the counters as they stand after this reading and comes after the
    lines of a failed insert. *)
Theorem progress_line_on_stored_reading (msg : delivery) (p : parsed)
  (st : pipeline) :
  read_message msg = inr p ->
  cache_contains (p_dedup_key p) (seen_messages st) = inr false ->
  logged (on_message msg st)
  = (logged st ++
     (if execute_ok msg then []
      else [LogInsertError;
            if reconnect_ok msg then LogTimescaleConnected
            else LogTimescaleConnectFailed])) ++
    (if (messages_received (stats st) + 1) mod 10 =? 0
     then [LogStats (messages_received (stats (on_message msg st)))
                    (messages_written (stats (on_message msg st)))
                    (errors (stats (on_message msg st)))]
     else []).
Proof.
  intros Hread Hfresh.
  destruct (on_message_fresh msg p st Hread Hfresh) as [d [_ Hrun]].
  rewrite Hrun. reflexivity.
Qed.

Lemma existsb_false_skipn {A} (f : A -> bool) (n : nat) (l : list A) :
  existsb f l = false -> existsb f (skipn n l) = false.
Proof.
  intros H. rewrite <- (firstn_skipn n l), existsb_app in H.
  apply orb_false_iff in H. tauto.
Qed.

Lemma after_store_other (k k' : dedup_key) (c : cache) :
  existsb (key_eq k') c = false ->
  key_eq k' k = false ->
  existsb (key_eq k') (after_store k c) = false.
Proof.
  intros Hc Hk.
  assert (H : existsb (key_eq k') (c ++ [k]) = false).
  { rewrite existsb_app, Hc. cbn. rewrite Hk. reflexivity. }
  unfold after_store.
  destruct (1000 <? Z.of_nat (List.length (c ++ [k]))).
  - apply existsb_false_skipn. exact H.
  - exact H.
Qed.

(** X11. The dedup check has no false positives: a reading whose key is not
    in the cache and differs from the key of the message delivered just
    before it is still handed to the storage. *)
Theorem different_key_not_suppressed (st : pipeline) (m1 m2 : delivery)
  (p1 p2 : parsed) :
  read_message m1 = inr p1 ->
  read_message m2 = inr p2 ->
  cache_contains (p_dedup_key p2) (seen_messages st) = inr false ->
  key_eq (p_dedup_key p2) (p_dedup_key p1) = false ->
  cache_contains (p_dedup_key p2) (seen_messages (on_message m1 st))
  = inr false
  /\ exists d,
       sink (on_message m2 (on_message m1 st))
       = sink (on_message m1 st)
         ++ SinkExecute d (execute_ok m2)
            :: (if execute_ok m2 then [] else [SinkConnect (reconnect_ok m2)]).
Proof.
  intros H1 H2 Hfresh Hne.
  destruct (cache_contains_hashable _ _ _ Hfresh) as [Hh Hex].
  assert (Hstill : cache_contains (p_dedup_key p2)
                     (seen_messages (on_message m1 st)) = inr false).
  { unfold cache_contains, ok. rewrite Hh. f_equal.
    destruct (on_message_cases m1 st)
      as [[e H] | [H | (p & d & Hp & _ & _ & H)]]; rewrite H;
      cbn [seen_messages log set_stats].
    - exact Hex.
    - exact Hex.
    - rewrite H1 in Hp. inversion Hp. subst p.
      apply after_store_other; assumption. }
  split; [exact Hstill |].
  destruct (on_message_fresh m2 p2 (on_message m1 st) H2 Hstill)
    as [d [_ Hrun]].
  exists d. rewrite Hrun. cbn [sink].
  destruct (execute_ok m2); reflexivity.
Qed.

Lemma FOP_snoc {A} (R : A -> A -> Prop) (l : list A) (k : A) :
  ForallOrdPairs R l -> Forall (fun a => R a k) l ->
  ForallOrdPairs R (l ++ [k]).
Proof.
  induction 1 as [| a l Ha Hl IH]; intros Hk; cbn.
  - constructor; constructor.
  - inversion Hk; subst. constructor.
    + apply Forall_app. split; [exact Ha | constructor; [assumption | constructor]].
    + apply IH. assumption.
Qed.

Lemma FOP_skipn {A} (R : A -> A -> Prop) (n : nat) :
  forall l : list A, ForallOrdPairs R l -> ForallOrdPairs R (skipn n l).
Proof.
  induction n as [| n IH]; intros l H.
  - exact H.
  - destruct l as [| a l]; [exact H |].
    cbn. apply IH. inversion H; assumption.
Qed.

Lemma existsb_false_Forall {A} (f : A -> bool) (l : list A) :
  existsb f l = false -> Forall (fun a => f a = false) l.
Proof.
  induction l as [| a l IH]; cbn; intros H.
  - constructor.
  - apply orb_false_iff in H. destruct H. constructor; auto.
Qed.

Lemma Forall_skipn {A} (P : A -> Prop) (n : nat) (l : list A) :
  Forall P l -> Forall P (skipn n l).
Proof.
  intros H. rewrite <- (firstn_skipn n l) in H.
  apply Forall_app in H. tauto.
Qed.

Lemma after_store_distinct (k : dedup_key) (c : cache) :
  key_hashable k = true ->
  existsb (key_eq k) c = false ->
  ForallOrdPairs (fun a b => key_eq b a = false) c
  /\ Forall (fun a => key_hashable a = true) c ->
  ForallOrdPairs (fun a b => key_eq b a = false) (after_store k c)
  /\ Forall (fun a => key_hashable a = true) (after_store k c).
Proof.
  intros Hh Hex [Hd Hall].
  assert (H1 : ForallOrdPairs (fun a b => key_eq b a = false) (c ++ [k])).
  { apply FOP_snoc; [exact Hd |]. apply existsb_false_Forall. exact Hex. }
  assert (H2 : Forall (fun a => key_hashable a = true) (c ++ [k])).
  { apply Forall_app. split; [exact Hall | constructor; [exact Hh | constructor]]. }
  unfold after_store.
  destruct (1000 <? Z.of_nat (List.length (c ++ [k]))).
  - split; [apply FOP_skipn | apply Forall_skipn]; assumption.
  - split; assumption.
Qed.

Lemma deliver_all_distinct (msgs : list delivery) :
  forall st : pipeline,
    ForallOrdPairs (fun a b => key_eq b a = false) (seen_messages st)
    /\ Forall (fun a => key_hashable a = true) (seen_messages st) ->
    ForallOrdPairs (fun a b => key_eq b a = false)
      (seen_messages (deliver_all msgs st))
    /\ Forall (fun a => key_hashable a = true)
         (seen_messages (deliver_all msgs st)).
Proof.
  induction msgs as [| m msgs IH]; intros st Hst.
  - exact Hst.
  - change (deliver_all (m :: msgs) st)
      with (deliver_all msgs (on_message m st)).
    apply IH.
    destruct (on_message_cases m st)
      as [[e H] | [H | (p & d & _ & Hin & _ & H)]]; rewrite H;
      cbn [seen_messages log set_stats]; try exact Hst.
    destruct (cache_contains_hashable _ _ _ Hin) as [Hh Hex].
    apply after_store_distinct; assumption.
Qed.

(** X12. The cache of a running pipeline holds hashable keys only, and no
    key in it equals (as a dict key) one stored before it: the list of keys
    is the key set of a dict. *)
Theorem cache_keys_distinct (msgs : list delivery) :
  ForallOrdPairs (fun earlier later => key_eq later earlier = false)
    (seen_messages (deliver_all msgs pipeline0))
  /\ Forall (fun k => key_hashable k = true)
       (seen_messages (deliver_all msgs pipeline0)).
Proof.
  apply deliver_all_distinct. cbn. split; constructor.
Qed.

End PipelineInvariants.

Lemma store_below_capacity_keeps_all_witness :
  (List.length (seen_messages pipeline0) < 1000)%nat
  /\ seen_messages
       (on_message (Samples.reading_msg "ahu1/temp" Samples.temperature true)
          pipeline0)
     = [(PStr "ahu1/temp", PStr "2024-01-01T00:00:00")].
Proof.
  assert (Hlen : (List.length (seen_messages pipeline0) < 1000)%nat)
    by (cbn; lia).
  split; [exact Hlen |].
  exact (store_below_capacity_keeps_all
           (Samples.reading_msg "ahu1/temp" Samples.temperature true)
           (Samples.reading_parsed "ahu1/temp" Samples.temperature)
           pipeline0 eq_refl eq_refl Hlen).
Defined.

Lemma progress_line_on_stored_reading_witness :
  logged
    (on_message (Samples.reading_msg "p10" Samples.temperature true)
       (deliver_all Samples.nine_readings pipeline0))
  = [LogStats 10 10 0].
Proof.
  rewrite (progress_line_on_stored_reading
             (Samples.reading_msg "p10" Samples.temperature true)
             (Samples.reading_parsed "p10" Samples.temperature)
             (deliver_all Samples.nine_readings pipeline0)
             eq_refl eq_refl).
  vm_compute. reflexivity.
Defined.

Lemma different_key_not_suppressed_witness :
  key_eq (p_dedup_key (Samples.reading_parsed "p2" Samples.temperature))
    (p_dedup_key (Samples.reading_parsed "p1" Samples.temperature)) = false
  /\ List.length
       (sink
          (on_message (Samples.reading_msg "p2" Samples.temperature true)
             (on_message (Samples.reading_msg "p1" Samples.temperature true)
                pipeline0)))
     = 2%nat.
Proof.
  split; [reflexivity |].
  destruct (different_key_not_suppressed pipeline0
              (Samples.reading_msg "p1" Samples.temperature true)
              (Samples.reading_msg "p2" Samples.temperature true)
              (Samples.reading_parsed "p1" Samples.temperature)
              (Samples.reading_parsed "p2" Samples.temperature)
              eq_refl eq_refl eq_refl eq_refl)
    as [_ [d Hs]].
  rewrite Hs. reflexivity.
Defined.

Section PipelineTimestamps.

Context {DT : DatetimeLib}.

(** Lines 211-223 on an object payload, given the event time of lines
    214-218. *)
Lemma read_message_object (msg : delivery) (items : list (string * pyval))
  (dt : datetime) :
  payload msg = inr (PDict items) ->
  (if truthy (dict_get_default items "timestamp" PNone)
   then rbind (py_replace_Z (dict_get_default items "timestamp" PNone))
          (fun s => match fromisoformat s with
                    | Some d => ok d
                    | None => throw ValueError
                    end)
   else ok (utcnow msg)) = inr dt ->
  forall sec : pyval,
    (if truthy (dict_get_default items "timestamp" PNone)
     then rbind (py_len (dict_get_default items "timestamp" PNone))
            (fun n => if 19 <=? n
                      then py_slice19 (dict_get_default items "timestamp" PNone)
                      else ok (str19 dt))
     else ok (str19 dt)) = inr sec ->
    read_message msg
    = inr {| p_payload := PDict items;
             p_timestamp := dict_get_default items "timestamp" PNone;
             p_dt := dt;
             p_haystack_name :=
               if truthy (dict_get_default items "haystackName" PNone)
               then dict_get_default items "haystackName" PNone
               else dict_get_default items "haystack_name" PNone;
             p_timestamp_second := sec |}.
Proof.
  intros Hpay Hdt sec Hsec.
  unfold read_message. rewrite Hpay. cbn [rbind py_get ok].
  unfold ok in Hdt, Hsec. unfold ok.
  rewrite Hdt. cbn [rbind].
  destruct (truthy (dict_get_default items "haystackName" PNone));
    cbn [rbind]; rewrite Hsec; reflexivity.
Qed.

(** X13. An object without a timestamp, or with a falsy one (null, [""],
    [0]), is never rejected: its event time is the clock at processing time
    and the second of its key is the first 19 characters of that clock's
    rendering. *)
Theorem missing_timestamp_uses_clock (msg : delivery)
  (items : list (string * pyval)) :
  payload msg = inr (PDict items) ->
  truthy (dict_get_default items "timestamp" PNone) = false ->
  exists p,
    read_message msg = inr p
    /\ p_dt p = utcnow msg
    /\ p_timestamp_second p
       = PStr (substring 0 19 (datetime_str (utcnow msg))).
Proof.
  intros Hpay Hts.
  eexists. split.
  - apply (read_message_object msg items (utcnow msg) Hpay).
    + rewrite Hts. reflexivity.
    + rewrite Hts. reflexivity.
  - split; reflexivity.
Qed.

(** X14. With a timestamp string that parses, the event time is the parsed
    instant, while the second of the dedup key is cut from the text as sent:
    its first 19 characters when it has that many, otherwise the first 19
    characters of the rendering of the parsed instant. *)
Theorem timestamp_second_from_text (msg : delivery)
  (items : list (string * pyval)) (s : string) (d : datetime) :
  payload msg = inr (PDict items) ->
  dict_get items "timestamp" = Some (PStr s) ->
  s <> "" ->
  fromisoformat (replace_Z s) = Some d ->
  exists p,
    read_message msg = inr p
    /\ p_dt p = d
    /\ p_timestamp_second p
       = if (19 <=? String.length s)%nat
         then PStr (substring 0 19 s)
         else PStr (substring 0 19 (datetime_str d)).
Proof.
  intros Hpay Hts Hne Hiso.
  assert (Hget : dict_get_default items "timestamp" PNone = PStr s).
  { unfold dict_get_default. rewrite Hts. reflexivity. }
  assert (Ht : truthy (PStr s) = true).
  { destruct s; [contradiction Hne; reflexivity | reflexivity]. }
  assert (Hlen : (19 <=? Z.of_nat (String.length s))
                 = (19 <=? String.length s)%nat).
  { destruct (19 <=? String.length s)%nat eqn:E.
    - apply Nat.leb_le in E. apply Z.leb_le. lia.
    - apply Nat.leb_gt in E. apply Z.leb_gt. lia. }
  eexists. split.
  - apply (read_message_object msg items d Hpay) with
      (sec := if (19 <=? String.length s)%nat
              then PStr (substring 0 19 s)
              else PStr (substring 0 19 (datetime_str d))).
    + rewrite Hget, Ht. cbn [py_replace_Z rbind ok]. rewrite Hiso. reflexivity.
    + rewrite Hget, Ht. cbn [py_len rbind ok py_slice19]. rewrite Hlen.
      destruct (19 <=? String.length s)%nat; reflexivity.
  - split; reflexivity.
Qed.

Lemma replace_Z_app (a b : string) :
  replace_Z (String.append a b) = String.append (replace_Z a) (replace_Z b).
Proof.
  induction a as [| c a IH]; cbn.
  - reflexivity.
  - rewrite IH. destruct (Ascii.eqb c "Z"%char); reflexivity.
Qed.

Lemma replace_Z_no_Z (s : string) : no_Z s = true -> replace_Z s = s.
Proof.
  induction s as [| c s IH]; cbn; intros H.
  - reflexivity.
  - apply andb_true_iff in H. destruct H as [Hc Hs].
    apply negb_true_iff in Hc. rewrite Hc, (IH Hs). reflexivity.
Qed.

(** X15. A trailing ['Z'] is read as the UTC offset: for a text without
    other ['Z'], the instant of [text + "Z"] is what [fromisoformat] makes of
    [text + "+00:00"]. *)
Theorem trailing_Z_is_utc (msg : delivery) (items : list (string * pyval))
  (s : string) (d : datetime) :
  payload msg = inr (PDict items) ->
  dict_get items "timestamp" = Some (PStr (String.append s "Z")) ->
  no_Z s = true ->
  fromisoformat (String.append s "+00:00") = Some d ->
  exists p, read_message msg = inr p /\ p_dt p = d.
Proof.
  intros Hpay Hts Hz Hiso.
  assert (Hrep : replace_Z (String.append s "Z") = String.append s "+00:00").
  { rewrite replace_Z_app, (replace_Z_no_Z s Hz). reflexivity. }
  assert (Hget : dict_get_default items "timestamp" PNone
                 = PStr (String.append s "Z")).
  { unfold dict_get_default. rewrite Hts. reflexivity. }
  assert (Ht : truthy (PStr (String.append s "Z")) = true).
  { destruct s; reflexivity. }
  eexists. split.
  - apply (read_message_object msg items d Hpay).
    + rewrite Hget, Ht. cbn [py_replace_Z rbind ok].
      rewrite Hrep, Hiso. reflexivity.
    + rewrite Hget, Ht. cbn [py_len rbind ok py_slice19].
      instantiate (1 := if 19 <=? Z.of_nat
                                    (String.length (String.append s "Z"))
                        then PStr (substring 0 19 (String.append s "Z"))
                        else str19 d).
      destruct (19 <=? Z.of_nat (String.length (String.append s "Z")));
        reflexivity.
  - reflexivity.
Qed.

(** X16. The row of a stored reading carries the event time, the name used
    in the dedup key ([haystackName], or [haystack_name] when the former is
    missing or falsy), and every other recognised field of the payload as
    sent, with [None] for the ones it lacks. *)
Theorem row_carries_payload (st : pipeline) (msg : delivery) (p : parsed)
  (items : list (string * pyval)) :
  payload msg = inr (PDict items) ->
  read_message msg = inr p ->
  cache_contains (p_dedup_key p) (seen_messages st) = inr false ->
  exists d,
    sink (on_message msg st)
    = sink st ++ SinkExecute d (execute_ok msg)
                 :: (if execute_ok msg then []
                     else [SinkConnect (reconnect_ok msg)])
    /\ time d = p_dt p
    /\ haystack_name d = fst (p_dedup_key p)
    /\ haystack_name d
       = (if truthy (dict_get_default items "haystackName" PNone)
          then dict_get_default items "haystackName" PNone
          else dict_get_default items "haystack_name" PNone)
    /\ site_id d = dict_get_default items "siteId" PNone
    /\ equipment_type d = dict_get_default items "equipmentType" PNone
    /\ equipment_id d = dict_get_default items "equipmentId" PNone
    /\ device_name d = dict_get_default items "deviceName" PNone
    /\ device_ip d = dict_get_default items "deviceIp" PNone
    /\ point_id d = dict_get_default items "pointId" PNone
    /\ point_name d = dict_get_default items "pointName" PNone
    /\ dis d = dict_get_default items "dis" PNone
    /\ value d = dict_get_default items "value" PNone
    /\ units d = dict_get_default items "units" PNone
    /\ poll_duration d = dict_get_default items "pollDuration" PNone
    /\ poll_cycle d = dict_get_default items "pollCycle" PNone.
Proof.
  intros Hpay Hread Hfresh.
  destruct (on_message_fresh msg p st Hread Hfresh) as [d [Hd Hrun]].
  destruct (read_message_dict msg p Hread) as [items' [Hpay' Hp]].
  rewrite Hpay in Hpay'. inversion Hpay'. subst items'.
  pose proof (read_message_name msg p items Hpay Hread) as Hname.
  rewrite Hp in Hd. cbn in Hd. inversion Hd. subst d. clear Hd.
  eexists. split.
  - rewrite Hrun. cbn [sink]. destruct (execute_ok msg); reflexivity.
  - cbn. rewrite <- Hname. repeat split; reflexivity.
Qed.

(** X17. Readings without a timestamp are deduplicated by arrival second:
    when two objects with the same name and no timestamp are processed while
    the clock renders to the same 19 characters, the second one is dropped
    (only [messages_received] moves), whatever values it carries. *)
Theorem clock_second_collision (st : pipeline) (m1 m2 : delivery)
  (items1 items2 : list (string * pyval)) (p1 : parsed) :
  payload m1 = inr (PDict items1) ->
  payload m2 = inr (PDict items2) ->
  truthy (dict_get_default items1 "timestamp" PNone) = false ->
  truthy (dict_get_default items2 "timestamp" PNone) = false ->
  (if truthy (dict_get_default items2 "haystackName" PNone)
   then dict_get_default items2 "haystackName" PNone
   else dict_get_default items2 "haystack_name" PNone)
  = (if truthy (dict_get_default items1 "haystackName" PNone)
     then dict_get_default items1 "haystackName" PNone
     else dict_get_default items1 "haystack_name" PNone) ->
  substring 0 19 (datetime_str (utcnow m2))
  = substring 0 19 (datetime_str (utcnow m1)) ->
  read_message m1 = inr p1 ->
  cache_contains (p_dedup_key p1) (seen_messages st) = inr false ->
  on_message m2 (on_message m1 st)
  = set_stats incr_received (on_message m1 st).
Proof.
  intros Hpay1 Hpay2 Hts1 Hts2 Hname Hsec Hread1 Hfresh.
  assert (R1 := read_message_object m1 items1 (utcnow m1) Hpay1).
  rewrite Hts1 in R1. specialize (R1 eq_refl _ eq_refl).
  assert (R2 := read_message_object m2 items2 (utcnow m2) Hpay2).
  rewrite Hts2 in R2. specialize (R2 eq_refl _ eq_refl).
  rewrite Hread1 in R1. inversion R1 as [Hp1]. clear R1.
  destruct (on_message_fresh m1 p1 st Hread1 Hfresh) as [d [_ Hrun]].
  destruct (cache_contains_hashable _ _ _ Hfresh) as [Hh _].
  eapply on_message_duplicate; [exact R2 |].
  unfold p_dedup_key at 1. cbn [p_haystack_name p_timestamp_second].
  unfold str19. rewrite Hname, Hsec.
  replace (_, _) with (p_dedup_key p1)
    by (rewrite Hp1; reflexivity).
  rewrite Hrun. cbn [seen_messages].
  apply after_store_contains. exact Hh.
Qed.

End PipelineTimestamps.

Lemma missing_timestamp_uses_clock_witness :
  truthy (dict_get_default MoreSamples.fallback_items "timestamp" PNone)
  = false
  /\ exists p,
       read_message (MoreSamples.on_clock (PDict MoreSamples.fallback_items))
       = inr p
       /\ p_dt p = Samples.noon
       /\ p_timestamp_second p = PStr "2024-01-01 12:00:00".
Proof.
  split; [reflexivity |].
  destruct (missing_timestamp_uses_clock
              (MoreSamples.on_clock (PDict MoreSamples.fallback_items))
              MoreSamples.fallback_items eq_refl eq_refl)
    as [p (Hr & Hdt & Hsec)].
  exists p. split; [exact Hr | split; [exact Hdt | exact Hsec]].
Defined.

Lemma timestamp_second_from_text_witness :
  fromisoformat (replace_Z "2024-01-01T00:00:00")
  = Some {| IsoSeconds.year := 2024; IsoSeconds.month := 1;
            IsoSeconds.day := 1; IsoSeconds.hour := 0;
            IsoSeconds.minute := 0; IsoSeconds.second := 0;
            IsoSeconds.utc := false |}
  /\ exists p,
       read_message
         (MoreSamples.on_clock (PDict MoreSamples.plain_stamp_items)) = inr p
       /\ p_timestamp_second p = PStr "2024-01-01T00:00:00".
Proof.
  split; [reflexivity |].
  assert (Hne : "2024-01-01T00:00:00" <> "") by discriminate.
  destruct (timestamp_second_from_text
              (MoreSamples.on_clock (PDict MoreSamples.plain_stamp_items))
              MoreSamples.plain_stamp_items "2024-01-01T00:00:00"
              {| IsoSeconds.year := 2024; IsoSeconds.month := 1;
                 IsoSeconds.day := 1; IsoSeconds.hour := 0;
                 IsoSeconds.minute := 0; IsoSeconds.second := 0;
                 IsoSeconds.utc := false |}
              eq_refl eq_refl Hne eq_refl)
    as [p (Hr & _ & Hsec)].
  exists p. split; [exact Hr | exact Hsec].
Defined.

Lemma trailing_Z_is_utc_witness :
  no_Z "2024-01-01T00:00:00" = true
  /\ exists p,
       read_message (Samples.reading_msg "p1" Samples.temperature true)
       = inr p
       /\ p_dt p = Samples.midnight_utc.
Proof.
  split; [reflexivity |].
  exact (trailing_Z_is_utc
           (Samples.reading_msg "p1" Samples.temperature true)
           [("haystackName", PStr "p1"); ("timestamp", PStr Samples.stamp);
            ("value", Samples.temperature)]
           "2024-01-01T00:00:00" Samples.midnight_utc
           eq_refl eq_refl eq_refl eq_refl).
Defined.

Lemma row_carries_payload_witness :
  exists d,
    sink (on_message (MoreSamples.on_clock (PDict MoreSamples.fallback_items))
            pipeline0) = [SinkExecute d true]
    /\ time d = Samples.noon
    /\ haystack_name d = PStr "ahu2"
    /\ value d = PInt 3
    /\ units d = PNone.
Proof.
  destruct (row_carries_payload pipeline0
              (MoreSamples.on_clock (PDict MoreSamples.fallback_items))
              MoreSamples.fallback_parsed MoreSamples.fallback_items
              eq_refl eq_refl eq_refl)
    as [d (Hs & Ht & _ & Hn & _ & _ & _ & _ & _ & _ & _ & _ & Hv & Hu & _)].
  exists d.
  split; [exact Hs | split; [exact Ht | split; [exact Hn | split]]].
  - exact Hv.
  - exact Hu.
Defined.

Lemma clock_second_collision_witness :
  read_message (MoreSamples.on_clock (PDict MoreSamples.fallback_items))
  = inr MoreSamples.fallback_parsed
  /\ on_message
       (MoreSamples.on_clock
          (PDict [("haystack_name", PStr "ahu2"); ("value", PInt 4)]))
       (on_message (MoreSamples.on_clock (PDict MoreSamples.fallback_items))
          pipeline0)
     = set_stats incr_received
         (on_message (MoreSamples.on_clock (PDict MoreSamples.fallback_items))
            pipeline0).
Proof.
  split; [reflexivity |].
  exact (clock_second_collision pipeline0
           (MoreSamples.on_clock (PDict MoreSamples.fallback_items))
           (MoreSamples.on_clock
              (PDict [("haystack_name", PStr "ahu2"); ("value", PInt 4)]))
           MoreSamples.fallback_items
           [("haystack_name", PStr "ahu2"); ("value", PInt 4)]
           MoreSamples.fallback_parsed
           eq_refl eq_refl eq_refl eq_refl eq_refl eq_refl eq_refl eq_refl).
Defined.

(** ** More on the configuration and the connection manager *)

Lemma or_int_nonzero (x : option Z) (d : Z) : d <> 0 -> or_int x d <> 0.
Proof.
  intros Hd. unfold or_int. destruct x as [z |]; [| exact Hd].
  destruct (z =? 0) eqn:E; [exact Hd |]. apply Z.eqb_neq. exact E.
Qed.

Lemma load_keeps_config_usable (answer : query_answer) (st : manager) :
  port (mqtt_config st) <> 0
  /\ qos (mqtt_config st) <> 0
  /\ topic_patterns (mqtt_config st) <> []
  /\ client_id (mqtt_config st) <> "" ->
  port (mqtt_config (snd (load_mqtt_config answer st))) <> 0
  /\ qos (mqtt_config (snd (load_mqtt_config answer st))) <> 0
  /\ topic_patterns (mqtt_config (snd (load_mqtt_config answer st))) <> []
  /\ client_id (mqtt_config (snd (load_mqtt_config answer st))) <> "".
Proof.
  intros H. destruct answer as [| | r]; try exact H.
  cbn. repeat split.
  - apply or_int_nonzero. discriminate.
  - apply or_int_nonzero. discriminate.
  - unfold or_list. destruct (row_topicPatterns r) as [[| a l] |]; discriminate.
  - unfold or_str. destruct (row_clientId r) as [s |]; [| discriminate].
    destruct s; cbn; discriminate.
Qed.

(** X18. Whatever the configuration table holds and however often it is
    reloaded, the active configuration always has a non-zero port and QoS, at
    least one topic pattern and a non-empty client id. *)
Theorem loaded_config_always_usable (answers : list query_answer) :
  port (mqtt_config (reload_all answers manager0)) <> 0
  /\ qos (mqtt_config (reload_all answers manager0)) <> 0
  /\ topic_patterns (mqtt_config (reload_all answers manager0)) <> []
  /\ client_id (mqtt_config (reload_all answers manager0)) <> "".
Proof.
  assert (H : forall st,
             port (mqtt_config st) <> 0
             /\ qos (mqtt_config st) <> 0
             /\ topic_patterns (mqtt_config st) <> []
             /\ client_id (mqtt_config st) <> "" ->
             port (mqtt_config (reload_all answers st)) <> 0
             /\ qos (mqtt_config (reload_all answers st)) <> 0
             /\ topic_patterns (mqtt_config (reload_all answers st)) <> []
             /\ client_id (mqtt_config (reload_all answers st)) <> "").
  { induction answers as [| a rest IH]; intros st Hst.
    - exact Hst.
    - change (reload_all (a :: rest) st)
        with (reload_all rest (snd (load_mqtt_config a st))).
      apply IH. apply load_keeps_config_usable. exact Hst. }
  apply H. cbn. repeat split; discriminate.
Qed.

Lemma config_changed_same (cfg : mqtt_config_t) : config_changed cfg cfg = false.
Proof.
  unfold config_changed.
  rewrite String.eqb_refl, Z.eqb_refl, Bool.eqb_reflx. reflexivity.
Qed.

(** X19. When the configuration cannot be read (the query fails or finds no
    row), the previous configuration stays active and the check touches
    nothing else: no call on the transport, the same client object, the same
    connection flag and statuses. *)
Theorem failed_reload_keeps_session (env : tick_env) (st : manager) :
  answer env = QueryFailed \/ answer env = NoRow ->
  fst (load_mqtt_config (answer env) st) = false
  /\ mqtt_config (check_config env st) = mqtt_config st
  /\ mqtt_client (check_config env st) = mqtt_client st
  /\ mqtt_connected (check_config env st) = mqtt_connected st
  /\ transport (check_config env st) = transport st
  /\ statuses (check_config env st) = statuses st.
Proof.
  intros H. unfold check_config.
  destruct H as [H | H]; rewrite H; cbn [load_mqtt_config fst snd mqtt_config
    mlog]; rewrite config_changed_same; cbn [andb]; repeat split.
Qed.

Lemma failed_reload_keeps_session_witness :
  answer MoreSamples.tick_store_down = QueryFailed
  /\ transport (check_config MoreSamples.tick_store_down
                 Samples.connected_to_broker1)
     = transport Samples.connected_to_broker1
  /\ mqtt_connected (check_config MoreSamples.tick_store_down
                      Samples.connected_to_broker1) = true.
Proof.
  destruct (failed_reload_keeps_session MoreSamples.tick_store_down
              Samples.connected_to_broker1 (or_introl eq_refl))
    as (_ & _ & _ & Hc & Ht & _).
  split; [reflexivity | split; [exact Ht | exact Hc]].
Defined.

Lemma subscribe_all_calls (patterns : list string) :
  forall st : manager,
    transport
      (fold_left
         (fun s pattern =>
            mlog [LogSubscribed pattern]
              (call [Subscribe pattern (qos (mqtt_config s))] s))
         patterns st)
    = transport st
      ++ map (fun pattern => Subscribe pattern (qos (mqtt_config st))) patterns
    /\ mqtt_connected
         (fold_left
            (fun s pattern =>
               mlog [LogSubscribed pattern]
                 (call [Subscribe pattern (qos (mqtt_config s))] s))
            patterns st) = mqtt_connected st
    /\ statuses
         (fold_left
            (fun s pattern =>
               mlog [LogSubscribed pattern]
                 (call [Subscribe pattern (qos (mqtt_config s))] s))
            patterns st) = statuses st.
Proof.
  induction patterns as [| pat rest IH]; intros st.
  - cbn. rewrite app_nil_r. repeat split.
  - cbn [fold_left map].
    destruct (IH (mlog [LogSubscribed pat]
                    (call [Subscribe pat (qos (mqtt_config st))] st)))
      as (Ht & Hc & Hs).
    rewrite Ht, Hc, Hs. cbn [transport mqtt_config mqtt_connected statuses
      mlog call].
    rewrite <- app_assoc. repeat split.
Qed.


(** X21. The connection flag follows the last callback alone: after any
    series of callbacks it is set exactly when the last one was an accepted
    connect. *)
Theorem connection_flag_follows_last_callback (cbs : list callback)
  (cb : callback) (st : manager) :
  mqtt_connected (run_callbacks (cbs ++ [cb]) st)
  = match cb with
    | OnConnect reason_code => reason_code =? 0
    | OnDisconnect _ => false
    end.
Proof.
  unfold run_callbacks. rewrite fold_left_app. cbn [fold_left].
  set (s := fold_left (fun s0 cb0 => run_callback cb0 s0) cbs st).
  destruct cb as [rc | rc]; cbn [run_callback].
  - unfold on_connect. destruct (rc =? 0).
    + match goal with
      | |- context [fold_left ?f ?l ?s0] =>
          destruct (subscribe_all_calls l s0) as (_ & Hc & _)
      end.
      rewrite Hc. reflexivity.
    + reflexivity.
  - unfold on_disconnect. destruct (negb (rc =? 0)); reflexivity.
Qed.

(** The client object [connect_mqtt] leaves in [mqtt_client] once [tls_set]
    has gone through (or was not needed), whether or not [connect] then
    raises. *)
Lemma connect_mqtt_client (env : connect_env) (st : manager) :
  nonempty (broker (mqtt_config st)) && enabled (mqtt_config st) = true ->
  tls_enabled (mqtt_config st) = false \/ tls_set_ok env = true ->
  mqtt_client (snd (connect_mqtt env st))
  = Some {| cl_client_id := client_id (mqtt_config st);
            cl_auth := if nonempty (username (mqtt_config st))
                       then Some (username (mqtt_config st),
                                  password (mqtt_config st))
                       else None;
            cl_tls := if tls_enabled (mqtt_config st)
                      then Some (snd (fst (choose_tls env (mqtt_config st))))
                      else None |}.
Proof.
  intros Hg Htls. apply andb_true_iff in Hg. destruct Hg as [Hb He].
  unfold connect_mqtt. rewrite Hb, He. cbn [negb].
  destruct (choose_tls env (mqtt_config st)) as [[before mode] after].
  cbn [fst snd].
  destruct (nonempty (username (mqtt_config st)));
    destruct (tls_enabled (mqtt_config st)) eqn:Et;
    destruct (tls_set_ok env) eqn:Es;
    try (destruct Htls; discriminate);
    destruct (connect_ok env);
    cbn [connect_failed snd fst];
    try match goal with
      | |- context [run_callbacks ?cbs ?s] =>
          destruct (run_callbacks_frame cbs s) as (_ & Hcl & _);
          rewrite Hcl
      end;
    reflexivity.
Qed.

(** X22. Credentials are set on the session exactly when the configured
    username is non-empty (a password alone is ignored), and the session
    uses the configured client id. *)
Theorem session_credentials (env : connect_env) (st : manager) :
  nonempty (broker (mqtt_config st)) && enabled (mqtt_config st) = true ->
  tls_enabled (mqtt_config st) = false \/ tls_set_ok env = true ->
  exists c,
    mqtt_client (snd (connect_mqtt env st)) = Some c
    /\ cl_client_id c = client_id (mqtt_config st)
    /\ cl_auth c = if nonempty (username (mqtt_config st))
                   then Some (username (mqtt_config st),
                              password (mqtt_config st))
                   else None.
Proof.
  intros Hg Htls. eexists. split.
  - apply connect_mqtt_client; assumption.
  - split; reflexivity.
Qed.

(** X23. With TLS enabled in insecure mode the session skips certificate
    verification whatever CA path is configured and whatever is on disk. *)
Theorem insecure_tls_ignores_ca (env : connect_env) (st : manager) :
  nonempty (broker (mqtt_config st)) && enabled (mqtt_config st) = true ->
  tls_enabled (mqtt_config st) = true ->
  tls_insecure (mqtt_config st) = true ->
  tls_set_ok env = true ->
  exists c,
    mqtt_client (snd (connect_mqtt env st)) = Some c
    /\ cl_tls c = Some TlsInsecure.
Proof.
  intros Hg Ht Hi Hs. eexists. split.
  - apply connect_mqtt_client; [exact Hg | right; exact Hs].
  - cbn [cl_tls]. rewrite Ht. unfold choose_tls. rewrite Hi. reflexivity.
Qed.

(** A line once logged stays in the log through the callbacks. *)
Lemma run_callbacks_keeps_log (cbs : list callback) :
  forall (s : manager) (l : manager_log),
    In l (mlogged s) -> In l (mlogged (run_callbacks cbs s)).
Proof.
  assert (Hf : forall (l : manager_log) (pats : list string) (s1 : manager),
             In l (mlogged s1) ->
             In l (mlogged
                     (fold_left
                        (fun s pattern =>
                           mlog [LogSubscribed pattern]
                             (call [Subscribe pattern (qos (mqtt_config s))] s))
                        pats s1))).
  { intros l pats. induction pats as [| pt pts IHp]; intros s1 H1; [exact H1 |].
    cbn [fold_left]. apply IHp. cbn [mlogged mlog call].
    apply in_or_app. left. exact H1. }
  induction cbs as [| cb rest IH]; intros s l Hl; [exact Hl |].
  change (run_callbacks (cb :: rest) s)
    with (run_callbacks rest (run_callback cb s)).
  apply IH. destruct cb as [rc | rc]; cbn [run_callback].
  - unfold on_connect. destruct (rc =? 0).
    + apply Hf. cbn [mlogged update_connection_status mlog set_connected].
      apply in_or_app. left. exact Hl.
    + cbn [mlogged update_connection_status mlog set_connected].
      apply in_or_app. left. exact Hl.
  - unfold on_disconnect. destruct (negb (rc =? 0));
      cbn [mlogged update_connection_status mlog set_connected];
      [apply in_or_app; left |]; exact Hl.
Qed.

(** X24. In secure mode a configured CA file that does not exist or cannot
    be read is logged and dropped: the session verifies against the system
    CA bundle and the connect goes ahead. *)
Theorem unusable_ca_falls_back (env : connect_env) (st : manager)
  (path : string) :
  nonempty (broker (mqtt_config st)) && enabled (mqtt_config st) = true ->
  tls_enabled (mqtt_config st) = true ->
  tls_insecure (mqtt_config st) = false ->
  ca_cert_path (mqtt_config st) = Some path ->
  path <> "" ->
  path_exists env path = false \/ path_readable env path = false ->
  tls_set_ok env = true ->
  connect_ok env = true ->
  (exists c,
     mqtt_client (snd (connect_mqtt env st)) = Some c
     /\ cl_tls c = Some TlsSystemCa
     /\ In (Connect c (broker (mqtt_config st)) (port (mqtt_config st)) 60)
          (transport (snd (connect_mqtt env st))))
  /\ (In (LogCaNotFound path) (mlogged (snd (connect_mqtt env st)))
      \/ In (LogCaNotReadable path) (mlogged (snd (connect_mqtt env st)))).
Proof.
  intros Hg Ht Hi Hp Hne Hbad Hs Hc.
  assert (Hn : nonempty path = true).
  { destruct path; [contradiction Hne; reflexivity | reflexivity]. }
  assert (Hmode : choose_tls env (mqtt_config st)
                  = ([if negb (path_exists env path)
                      then LogCaNotFound path
                      else LogCaNotReadable path],
                     TlsSystemCa, LogTlsSystemCa)).
  { unfold choose_tls. rewrite Hi, Hp, Hn.
    destruct (path_exists env path) eqn:E1; cbn [negb].
    - destruct Hbad as [Hbad | Hbad]; [discriminate |].
      rewrite Hbad. reflexivity.
    - reflexivity. }
  pose proof (connect_mqtt_client env st Hg (or_intror Hs)) as Hcl.
  rewrite Ht, Hmode in Hcl. cbn [fst snd] in Hcl.
  apply andb_true_iff in Hg. destruct Hg as [Hb He].
  split.
  - eexists. split; [exact Hcl |]. split; [reflexivity |].
    unfold connect_mqtt. rewrite Hb, He, Ht, Hs, Hc, Hmode. cbn [negb].
    destruct (nonempty (username (mqtt_config st)));
      match goal with
      | |- context [run_callbacks ?cbs ?s] =>
          destruct (run_callbacks_frame cbs s) as (_ & _ & evs & Htr & _);
          cbn [snd]; rewrite Htr
      end;
      cbn [transport call update_connection_status mlog set_client];
      repeat rewrite in_app_iff; cbn [In]; tauto.
  - unfold connect_mqtt. rewrite Hb, He, Ht, Hs, Hc, Hmode. cbn [negb].
    destruct (path_exists env path); cbn [negb];
      [right | left];
      destruct (nonempty (username (mqtt_config st)));
      cbn [snd]; apply run_callbacks_keeps_log;
      cbn [mlogged call update_connection_status mlog set_client];
      repeat rewrite in_app_iff; cbn [In]; tauto.
Qed.

(** X25. A CA file is handed to the TLS setup only if it is the configured
    one, the mode is secure, and the file exists and is readable. *)
Theorem ca_file_used_only_if_readable (env : connect_env) (st : manager)
  (c : client) (path : string) :
  nonempty (broker (mqtt_config st)) && enabled (mqtt_config st) = true ->
  tls_enabled (mqtt_config st) = true ->
  tls_set_ok env = true ->
  mqtt_client (snd (connect_mqtt env st)) = Some c ->
  cl_tls c = Some (TlsCaFile path) ->
  tls_insecure (mqtt_config st) = false
  /\ ca_cert_path (mqtt_config st) = Some path
  /\ path_exists env path = true
  /\ path_readable env path = true.
Proof.
  intros Hg Ht Hs Hcl Hmode.
  rewrite (connect_mqtt_client env st Hg (or_intror Hs)) in Hcl.
  inversion Hcl as [Hc]. subst c. cbn [cl_tls] in Hmode.
  rewrite Ht in Hmode. inversion Hmode as [Hm]. clear Hmode Hcl.
  unfold choose_tls in Hm.
  destruct (tls_insecure (mqtt_config st)); [discriminate |].
  destruct (ca_cert_path (mqtt_config st)) as [p |]; [| discriminate].
  destruct (nonempty p) eqn:En.
  - destruct (path_exists env p) eqn:E1; cbn [negb] in Hm;
      [| discriminate].
    destruct (path_readable env p) eqn:E2; cbn [negb] in Hm;
      [| discriminate].
    cbn [fst snd] in Hm. rewrite En in Hm. inversion Hm. subst p.
    repeat split; assumption.
  - cbn [fst snd] in Hm. rewrite En in Hm. discriminate.
Qed.

(** X26. When [connect] raises, [connect_mqtt] returns [False] with the
    statuses [connecting] then [error] recorded; the new client object has
    replaced the old one, but its loop is not started, nothing is subscribed
    and the connection flag keeps its value. *)
Theorem connect_failure_recorded (env : connect_env) (st : manager) :
  nonempty (broker (mqtt_config st)) && enabled (mqtt_config st) = true ->
  tls_enabled (mqtt_config st) = false \/ tls_set_ok env = true ->
  connect_ok env = false ->
  fst (connect_mqtt env st) = false
  /\ statuses (snd (connect_mqtt env st))
     = statuses st ++ [(StatusConnecting, false); (StatusError, false)]
  /\ mqtt_connected (snd (connect_mqtt env st)) = mqtt_connected st
  /\ existsb is_loop_start (new_calls st (snd (connect_mqtt env st))) = false
  /\ existsb is_subscribe (new_calls st (snd (connect_mqtt env st))) = false
  /\ rebuilt st (snd (connect_mqtt env st)) = true.
Proof.
  intros Hg Htls Hc. apply andb_true_iff in Hg. destruct Hg as [Hb He].
  unfold rebuilt.
  unfold connect_mqtt. rewrite Hb, He, Hc. cbn [negb].
  destruct (choose_tls env (mqtt_config st)) as [[before mode] after].
  destruct (nonempty (username (mqtt_config st)));
    destruct (tls_enabled (mqtt_config st));
    destruct (tls_set_ok env);
    try (destruct Htls; discriminate);
    cbn [connect_failed fst snd];
    match goal with
    | |- context [new_calls st ?s] =>
        rewrite (new_calls_app st s
                   [NewClient (client_id (mqtt_config st));
                    ConnectRaised
                      match mqtt_client s with
                      | Some c => c
                      | None => {| cl_client_id := ""; cl_auth := None;
                                   cl_tls := None |}
                      end])
          by (cbn [transport mqtt_client call update_connection_status mlog
                     set_client]; rewrite <- app_assoc; reflexivity)
    end;
    cbn [statuses mqtt_connected call update_connection_status mlog
           set_client existsb is_loop_start is_subscribe is_new_client orb];
    rewrite <- ?app_assoc; repeat split; reflexivity.
Qed.

(** X27. [connect_mqtt] returns [True] only when the connection flag is set
    at the end of its wait. *)
Theorem connect_returns_flag (env : connect_env) (st : manager) :
  fst (connect_mqtt env st) = true ->
  mqtt_connected (snd (connect_mqtt env st)) = true.
Proof.
  unfold connect_mqtt.
  destruct (choose_tls env (mqtt_config st)) as [[before mode] after].
  destruct (negb (nonempty (broker (mqtt_config st)))); [discriminate |].
  destruct (negb (enabled (mqtt_config st))); [discriminate |].
  destruct (nonempty (username (mqtt_config st)));
    destruct (tls_enabled (mqtt_config st));
    destruct (tls_set_ok env);
    destruct (connect_ok env);
    cbn [connect_failed fst snd];
    try discriminate; intros H; exact H.
Qed.

(** X28. Without a client object the configuration check only loads the
    configuration: even when address, port or TLS changed it makes no call
    on the transport and builds nothing. *)
Theorem check_config_without_client (env : tick_env) (st : manager) :
  mqtt_client st = None ->
  check_config env st = snd (load_mqtt_config (answer env) st)
  /\ transport (check_config env st) = transport st
  /\ mqtt_client (check_config env st) = None
  /\ statuses (check_config env st) = statuses st.
Proof.
  intros Hcl.
  destruct (load_mqtt_config_frame (answer env) st) as (Lcl & _ & Ltr & Lst).
  assert (H : check_config env st = snd (load_mqtt_config (answer env) st)).
  { unfold check_config. rewrite Lcl, Hcl. cbn [is_some].
    rewrite andb_false_r. reflexivity. }
  rewrite H, Lcl, Ltr, Lst, Hcl. repeat split.
Qed.

(** X29. An iteration of the main loop that is not due for a configuration
    check does nothing at all when the session is connected, when no broker
    is configured, or when the configuration is disabled. *)
Theorem idle_iteration_changes_nothing (env : tick_env) (ls : loop_state) :
  PrimFloat.ltb config_check_interval
    (PrimFloat.sub (current_time env) (last_config_check ls)) = false ->
  mqtt_connected (mgr ls) = true
  \/ broker (mqtt_config (mgr ls)) = ""
  \/ enabled (mqtt_config (mgr ls)) = false ->
  main_iteration env ls = ls.
Proof.
  intros Hdue H. unfold main_iteration. rewrite Hdue.
  destruct H as [H | [H | H]]; rewrite H; cbn [negb andb nonempty];
    rewrite ?andb_false_r; reflexivity.
Qed.


(** *** The connection manager on the sample inputs *)

Lemma session_credentials_witness :
  exists c,
    mqtt_client
      (snd (connect_mqtt Samples.accepting
              (MoreSamples.configured (MoreSamples.tls_config false))))
    = Some c
    /\ cl_client_id c = "storage_telegraf"
    /\ cl_auth c = Some ("storage", "secret").
Proof.
  exact (session_credentials Samples.accepting
           (MoreSamples.configured (MoreSamples.tls_config false))
           eq_refl (or_intror eq_refl)).
Defined.

Lemma insecure_tls_ignores_ca_witness :
  ca_cert_path (MoreSamples.tls_config true) = Some "/certs/ca.crt"
  /\ exists c,
       mqtt_client
         (snd (connect_mqtt MoreSamples.no_ca_file
                 (MoreSamples.configured (MoreSamples.tls_config true))))
       = Some c
       /\ cl_tls c = Some TlsInsecure.
Proof.
  split; [reflexivity |].
  exact (insecure_tls_ignores_ca MoreSamples.no_ca_file
           (MoreSamples.configured (MoreSamples.tls_config true))
           eq_refl eq_refl eq_refl eq_refl).
Defined.

Lemma unusable_ca_falls_back_witness :
  path_exists MoreSamples.no_ca_file "/certs/ca.crt" = false
  /\ exists c,
       mqtt_client
         (snd (connect_mqtt MoreSamples.no_ca_file
                 (MoreSamples.configured (MoreSamples.tls_config false))))
       = Some c
       /\ cl_tls c = Some TlsSystemCa.
Proof.
  split; [reflexivity |].
  assert (Hne : "/certs/ca.crt" <> "") by discriminate.
  destruct (unusable_ca_falls_back MoreSamples.no_ca_file
              (MoreSamples.configured (MoreSamples.tls_config false))
              "/certs/ca.crt"
              eq_refl eq_refl eq_refl eq_refl Hne (or_introl eq_refl)
              eq_refl eq_refl)
    as [[c (Hc & Hm & _)] _].
  exists c. split; [exact Hc | exact Hm].
Defined.

Lemma ca_file_used_only_if_readable_witness :
  mqtt_client
    (snd (connect_mqtt Samples.accepting
            (MoreSamples.configured (MoreSamples.tls_config false))))
  = Some {| cl_client_id := "storage_telegraf";
            cl_auth := Some ("storage", "secret");
            cl_tls := Some (TlsCaFile "/certs/ca.crt") |}
  /\ path_exists Samples.accepting "/certs/ca.crt" = true
  /\ path_readable Samples.accepting "/certs/ca.crt" = true.
Proof.
  destruct (ca_file_used_only_if_readable Samples.accepting
              (MoreSamples.configured (MoreSamples.tls_config false))
              {| cl_client_id := "storage_telegraf";
                 cl_auth := Some ("storage", "secret");
                 cl_tls := Some (TlsCaFile "/certs/ca.crt") |}
              "/certs/ca.crt"
              eq_refl eq_refl eq_refl eq_refl eq_refl)
    as (_ & _ & He & Hr).
  split; [reflexivity | split; [exact He | exact Hr]].
Defined.

Lemma connect_failure_recorded_witness :
  connect_ok MoreSamples.unreachable = false
  /\ fst (connect_mqtt MoreSamples.unreachable
            (MoreSamples.configured (MoreSamples.tls_config false))) = false
  /\ statuses
       (snd (connect_mqtt MoreSamples.unreachable
               (MoreSamples.configured (MoreSamples.tls_config false))))
     = [(StatusConnecting, false); (StatusError, false)].
Proof.
  destruct (connect_failure_recorded MoreSamples.unreachable
              (MoreSamples.configured (MoreSamples.tls_config false))
              eq_refl (or_intror eq_refl) eq_refl)
    as (Hf & Hs & _).
  split; [reflexivity | split; [exact Hf | exact Hs]].
Defined.

Lemma connect_returns_flag_witness :
  fst (connect_mqtt Samples.accepting
         (MoreSamples.configured (MoreSamples.tls_config false))) = true
  /\ mqtt_connected
       (snd (connect_mqtt Samples.accepting
               (MoreSamples.configured (MoreSamples.tls_config false))))
     = true.
Proof.
  split; [reflexivity |].
  exact (connect_returns_flag Samples.accepting
           (MoreSamples.configured (MoreSamples.tls_config false)) eq_refl).
Defined.

Lemma check_config_without_client_witness :
  mqtt_client manager0 = None
  /\ config_changed (mqtt_config manager0)
       (mqtt_config
          (check_config
             (Samples.tick_reading
                (Samples.broker_row "broker1" false ["bacnet/#"] 1 true))
             manager0)) = true
  /\ transport
       (check_config
          (Samples.tick_reading
             (Samples.broker_row "broker1" false ["bacnet/#"] 1 true))
          manager0) = [].
Proof.
  destruct (check_config_without_client
              (Samples.tick_reading
                 (Samples.broker_row "broker1" false ["bacnet/#"] 1 true))
              manager0 eq_refl)
    as (_ & Ht & _).
  split; [reflexivity | split; [reflexivity | exact Ht]].
Defined.

Lemma idle_iteration_changes_nothing_witness :
  main_iteration
    (MoreSamples.tick_at 60%float
       (Samples.broker_row "broker2" true ["other/#"] 2 true))
    {| last_config_check := 45%float; mgr := Samples.connected_to_broker1 |}
  = {| last_config_check := 45%float; mgr := Samples.connected_to_broker1 |}.
Proof.
  exact (idle_iteration_changes_nothing
           (MoreSamples.tick_at 60%float
              (Samples.broker_row "broker2" true ["other/#"] 2 true))
           {| last_config_check := 45%float;
              mgr := Samples.connected_to_broker1 |}
           eq_refl (or_introl eq_refl)).
Defined.

